(** * idc-ocr: the document-ingestion Lambda ([lambda_function.py])

    A shallow embedding of the handler and of the five stages it
    orchestrates (metadata fetch, text extraction, summarisation, record
    write, batch dispatch), followed by the properties of the design
    document that concern them.

    Conventions of the embedding.
    - A Python [str] is a list of Unicode code points ([N]); a Python
      [bytes] is a list of [Byte.byte].
    - Values that come from JSON (the Lambda event, the model response,
      the DynamoDB item) are [pyval]s; a dict is an association list in
      which the first binding of a key is the one in force.
    - Code that calls boto3, the clock, [uuid] or the logger is written in
      a state-and-exception monad [M] over the outside world; the calls
      made are recorded in a trace.
    - [try ... except Exception] is [try_catch]; only exceptions derived
      from [Exception] are modelled. *)

From Stdlib Require Import List ZArith NArith String Ascii Bool Lia.
From Stdlib Require Import PrimFloat DecimalString.
From Stdlib Require Strings.Byte.
Import ListNotations.

Set Implicit Arguments.
Set Warnings "-inexact-float".
Local Open Scope N_scope.

(* ================================================================== *)
(** ** Python strings and bytes *)

Module PyStr.

Definition codepoint := N.
Definition str := list codepoint.
Definition bytes := list Byte.byte.

(** A string literal of the source, as a [str]. *)
Definition lit (s : string) : str :=
  map N_of_ascii (list_ascii_of_string s).

Definition nl : str := [10].

Fixpoint str_eqb (a b : str) : bool :=
  match a, b with
  | [], [] => true
  | x :: a', y :: b' => (x =? y) && str_eqb a' b'
  | _, _ => false
  end.

(** [x in [l0, l1, ...]] for a list of strings. *)
Definition str_in (x : str) (l : list str) : bool :=
  existsb (str_eqb x) l.

(** [len(s)] *)
Definition len (s : str) : Z := Z.of_nat (List.length s).

(** [str(n)] for an integer. *)
Definition str_of_Z (z : Z) : str :=
  lit (NilZero.string_of_int (Z.to_int z)).

(** *** [str.lower]

    The case mapping is written out, one character at a time, for every
    code point up to U+00FF and for the two code points beyond it whose
    lower case contains an ASCII letter (U+0130, U+212A); other code
    points are left as they are.  So [lower s] is [s.lower()] for a
    string of code points up to U+00FF.  For other strings the two may
    differ in letters outside ASCII (the case pairs above U+00FF, the
    final sigma); they agree on whether a segment between dots is one of
    the ASCII words the code compares it with, which is all the code
    uses the lower-cased key for. *)
Definition lower_char (c : codepoint) : str :=
  if (65 <=? c) && (c <=? 90) then [c + 32]
  else if (192 <=? c) && (c <=? 222) && negb (c =? 215) then [c + 32]
  else if c =? 304 then [105; 775]
  else if c =? 8490 then [107]
  else [c].

Definition lower (s : str) : str := flat_map lower_char s.

(** *** [str.split(sep)] for a one-character separator, and [l[-1]] *)
Fixpoint split (sep : codepoint) (s : str) : list str :=
  match s with
  | [] => [[]]
  | c :: t =>
      if c =? sep then [] :: split sep t
      else match split sep t with
           | [] => [[c]]
           | h :: r => (c :: h) :: r
           end
  end.

Definition last_item (l : list str) : str := last l [].

(** *** [str.strip()] and [str.strip(chars)] *)

(** [str.isspace] on one code point: the white-space set of CPython. *)
Definition is_space (c : codepoint) : bool :=
  ((9 <=? c) && (c <=? 13)) || ((28 <=? c) && (c <=? 32))
  || (c =? 133) || (c =? 160) || (c =? 5760)
  || ((8192 <=? c) && (c <=? 8202))
  || (c =? 8232) || (c =? 8233) || (c =? 8239) || (c =? 8287)
  || (c =? 12288).

Fixpoint lstrip_by (p : codepoint -> bool) (s : str) : str :=
  match s with
  | [] => []
  | c :: t => if p c then lstrip_by p t else s
  end.

Fixpoint rstrip_by (p : codepoint -> bool) (s : str) : str :=
  match s with
  | [] => []
  | c :: t =>
      match rstrip_by p t with
      | [] => if p c then [] else [c]
      | t' => c :: t'
      end
  end.

Definition strip_by (p : codepoint -> bool) (s : str) : str :=
  rstrip_by p (lstrip_by p s).

Definition strip (s : str) : str := strip_by is_space s.

(** [s.strip(chars)] where [chars] is the double-quote character
    (code point 34). *)
Definition strip_quotes (s : str) : str := strip_by (N.eqb 34) s.

(** [s[:n]] for [n >= 0] *)
Definition slice_to (n : N) (s : str) : str := firstn (N.to_nat n) s.

(** [a in b] for two strings: [a] occurs in [b]. *)
Fixpoint is_prefix (a b : str) : bool :=
  match a, b with
  | [], _ => true
  | x :: a', y :: b' => (x =? y) && is_prefix a' b'
  | _ :: _, [] => false
  end.

Fixpoint is_substring (a b : str) : bool :=
  is_prefix a b ||
  match b with
  | [] => false
  | _ :: b' => is_substring a b'
  end.

End PyStr.
Import PyStr.

(* ================================================================== *)
(** ** Exceptions and the codecs of [bytes.decode] *)

Inductive exn : Type :=
| KeyError (key_repr : str)
| TypeError (what : str)
| AttributeError (what : str)
| IndexError (what : str)
| UnicodeDecodeError (codec : str)
| ValueError (what : str)
| ServiceError (what : str).

Inductive outcome (A : Type) : Type :=
| Ok (a : A)
| Raise (e : exn).
Arguments Ok {A} a.
Arguments Raise {A} e.

Module Codec.

Definition cons_ok (c : codepoint) (r : outcome str) : outcome str :=
  match r with
  | Ok s => Ok (c :: s)
  | Raise e => Raise e
  end.

Definition in_range (lo hi : N) (b : Byte.byte) : bool :=
  (lo <=? Byte.to_N b) && (Byte.to_N b <=? hi).

(** The six low bits of a continuation byte. *)
Definition low6 (b : Byte.byte) : N := N.land (Byte.to_N b) 63.

(** Shape of a UTF-8 sequence, read off its first byte: the number of
    continuation bytes, the range allowed for the first of them, and the
    payload bits of the lead byte (well-formed sequences only: no overlong
    form, no surrogate, nothing above U+10FFFF). *)
Inductive utf8_lead : Type :=
| Lead1 (cp : N)
| Lead2 (hi : N)
| Lead3 (lo1 hi1 : N) (hi : N)
| Lead4 (lo1 hi1 : N) (hi : N)
| LeadBad.

Definition classify (b0 : N) : utf8_lead :=
  if b0 <? 128 then Lead1 b0
  else if (194 <=? b0) && (b0 <=? 223) then Lead2 (N.land b0 31)
  else if b0 =? 224 then Lead3 160 191 (N.land b0 15)
  else if b0 =? 237 then Lead3 128 159 (N.land b0 15)
  else if (225 <=? b0) && (b0 <=? 239) then Lead3 128 191 (N.land b0 15)
  else if b0 =? 240 then Lead4 144 191 (N.land b0 7)
  else if b0 =? 244 then Lead4 128 143 (N.land b0 7)
  else if (241 <=? b0) && (b0 <=? 243) then Lead4 128 191 (N.land b0 7)
  else LeadBad.

(** [content.decode('utf-8', errors=...)].  With [ignore = false] (the
    default, [errors='strict']) an ill-formed sequence raises
    [UnicodeDecodeError]; with [ignore = true] the offending lead byte is
    dropped and decoding goes on (the continuation bytes that followed it
    are then dropped one by one, being ill-formed as lead bytes). *)
Fixpoint decode_utf8 (ignore : bool) (bs : bytes) : outcome str :=
  match bs with
  | [] => Ok []
  | b0 :: r0 =>
      let bad :=
        if ignore then decode_utf8 ignore r0
        else Raise (UnicodeDecodeError (lit "utf-8")) in
      match classify (Byte.to_N b0) with
      | Lead1 cp => cons_ok cp (decode_utf8 ignore r0)
      | Lead2 hi =>
          match r0 with
          | b1 :: r1 =>
              if in_range 128 191 b1
              then cons_ok (hi * 64 + low6 b1) (decode_utf8 ignore r1)
              else bad
          | _ => bad
          end
      | Lead3 lo1 hi1 hi =>
          match r0 with
          | b1 :: b2 :: r2 =>
              if in_range lo1 hi1 b1 && in_range 128 191 b2
              then cons_ok ((hi * 64 + low6 b1) * 64 + low6 b2)
                           (decode_utf8 ignore r2)
              else bad
          | _ => bad
          end
      | Lead4 lo1 hi1 hi =>
          match r0 with
          | b1 :: b2 :: b3 :: r3 =>
              if in_range lo1 hi1 b1 && in_range 128 191 b2
                 && in_range 128 191 b3
              then cons_ok (((hi * 64 + low6 b1) * 64 + low6 b2) * 64 + low6 b3)
                           (decode_utf8 ignore r3)
              else bad
          | _ => bad
          end
      | LeadBad => bad
      end
  end.

(** A single-byte codec: every byte stands for the code point that the
    table of the codec gives for it; a byte without an entry raises. *)
Fixpoint decode_charmap (name : str) (table : N -> option codepoint)
    (bs : bytes) : outcome str :=
  match bs with
  | [] => Ok []
  | b :: r =>
      match table (Byte.to_N b) with
      | Some c => cons_ok c (decode_charmap name table r)
      | None => Raise (UnicodeDecodeError name)
      end
  end.

(** ISO-8859-1: the byte of value [n] is the code point [n], for each of
    the 256 values. *)
Definition latin1_table (n : N) : option codepoint :=
  if n <? 256 then Some n else None.

(** [content.decode('latin-1')] *)
Definition decode_latin1 (bs : bytes) : outcome str :=
  decode_charmap (lit "latin-1") latin1_table bs.

Definition is_unicode_error (e : exn) : bool :=
  match e with UnicodeDecodeError _ => true | _ => false end.

(** Which of the three attempts produced the text. *)
Inductive attempt : Type := ByUtf8 | ByLatin1 | ByUtf8Ignore.

(** The decoding chain of [extract_text_directly] (the nested
    [try ... except UnicodeDecodeError] blocks), which also reports the
    attempt that succeeded.  An exception that is not a
    [UnicodeDecodeError] passes through. *)
Definition decode_chain (content : bytes) : outcome (attempt * str) :=
  match decode_utf8 false content with
  | Ok text => Ok (ByUtf8, text)
  | Raise e =>
      if is_unicode_error e then
        match decode_latin1 content with
        | Ok text => Ok (ByLatin1, text)
        | Raise e' =>
            if is_unicode_error e' then
              match decode_utf8 true content with
              | Ok text => Ok (ByUtf8Ignore, text)
              | Raise e'' => Raise e''
              end
            else Raise e'
        end
      else Raise e
  end.

(** The value bound to [text]. *)
Definition decode_text (content : bytes) : outcome str :=
  match decode_chain content with
  | Ok (_, text) => Ok text
  | Raise e => Raise e
  end.

End Codec.
Import Codec.

(* ================================================================== *)
(** ** Python values that come from, or go to, JSON *)

Local Unset Elimination Schemes.
Inductive pyval : Type :=
| PNone
| PBool (b : bool)
| PInt (z : Z)
| PFloat (f : float)
| PStr (s : str)
| PList (l : list pyval)
| PDict (kvs : list (str * pyval)).
Local Set Elimination Schemes.

Module Py.

Fixpoint dict_get (kvs : list (str * pyval)) (k : str) : option pyval :=
  match kvs with
  | [] => None
  | (k', v) :: rest => if str_eqb k k' then Some v else dict_get rest k
  end.

(** The keys of a dict, each once, in order of first insertion. *)
Fixpoint dict_keys (kvs : list (str * pyval)) (seen : list str) : list str :=
  match kvs with
  | [] => []
  | (k, _) :: rest =>
      if str_in k seen then dict_keys rest seen
      else k :: dict_keys rest (k :: seen)
  end.

(** [str(e)] for the exceptions of the model.  For a [KeyError] this is
    the [repr] of the missing key; for a [UnicodeDecodeError] only the
    beginning of the message is kept. *)
Definition exn_str (e : exn) : str :=
  match e with
  | KeyError key_repr => key_repr
  | UnicodeDecodeError codec =>
      lit "'" ++ codec ++ lit "' codec can't decode bytes"
  | TypeError m | AttributeError m | IndexError m
  | ValueError m | ServiceError m => m
  end.

Definition type_name (v : pyval) : str :=
  match v with
  | PNone => lit "NoneType"
  | PBool _ => lit "bool"
  | PInt _ => lit "int"
  | PFloat _ => lit "float"
  | PStr _ => lit "str"
  | PList _ => lit "list"
  | PDict _ => lit "dict"
  end.

Definition not_subscriptable (v : pyval) : exn :=
  TypeError (lit "'" ++ type_name v ++ lit "' object is not subscriptable").

(** [c[k]] for a string literal [k]. *)
Definition getitem_str (c : pyval) (k : str) : outcome pyval :=
  match c with
  | PDict kvs =>
      match dict_get kvs k with
      | Some v => Ok v
      | None => Raise (KeyError (lit "'" ++ k ++ lit "'"))
      end
  | PList _ =>
      Raise (TypeError (lit "list indices must be integers or slices, not str"))
  | PStr _ =>
      Raise (TypeError (lit "string indices must be integers, not 'str'"))
  | _ => Raise (not_subscriptable c)
  end.

(** [c[0]] *)
Definition getitem_0 (c : pyval) : outcome pyval :=
  match c with
  | PDict _ => Raise (KeyError (lit "0"))
  | PList (v :: _) => Ok v
  | PList [] => Raise (IndexError (lit "list index out of range"))
  | PStr (ch :: _) => Ok (PStr [ch])
  | PStr [] => Raise (IndexError (lit "string index out of range"))
  | _ => Raise (not_subscriptable c)
  end.

(** [v == s] for a string literal [s]. *)
Definition eq_str (v : pyval) (s : str) : bool :=
  match v with
  | PStr s' => str_eqb s' s
  | _ => false
  end.

(** [k in c] for a string literal [k]. *)
Definition contains_str (k : str) (c : pyval) : outcome bool :=
  match c with
  | PDict kvs =>
      Ok (match dict_get kvs k with Some _ => true | None => false end)
  | PList l => Ok (existsb (fun v => eq_str v k) l)
  | PStr s => Ok (is_substring k s)
  | _ =>
      Raise (TypeError (lit "argument of type '" ++ type_name c
                        ++ lit "' is not iterable"))
  end.

(** Truth value of an object. *)
Definition truthy (v : pyval) : bool :=
  match v with
  | PNone => false
  | PBool b => b
  | PInt z => negb (z =? 0)%Z
  | PFloat f => negb (PrimFloat.eqb f 0%float)
  | PStr s => match s with [] => false | _ => true end
  | PList l => match l with [] => false | _ => true end
  | PDict kvs => match kvs with [] => false | _ => true end
  end.

(** The items a [for] loop visits. *)
Definition iterate (v : pyval) : outcome (list pyval) :=
  match v with
  | PList l => Ok l
  | PDict kvs => Ok (map PStr (dict_keys kvs []))
  | PStr s => Ok (map (fun c => PStr [c]) s)
  | _ =>
      Raise (TypeError (lit "'" ++ type_name v
                        ++ lit "' object is not iterable"))
  end.

(** [len(v)] *)
Definition length_of (v : pyval) : outcome Z :=
  match v with
  | PStr s => Ok (len s)
  | PList l => Ok (Z.of_nat (List.length l))
  | PDict kvs => Ok (Z.of_nat (List.length (dict_keys kvs [])))
  | _ =>
      Raise (TypeError (lit "object of type '" ++ type_name v
                        ++ lit "' has no len()"))
  end.

(** [v.strip()] *)
Definition strip_of (v : pyval) : outcome str :=
  match v with
  | PStr s => Ok (strip s)
  | _ =>
      Raise (AttributeError (lit "'" ++ type_name v
                             ++ lit "' object has no attribute 'strip'"))
  end.

Definition opt_str (o : option str) : pyval :=
  match o with
  | Some s => PStr s
  | None => PNone
  end.

End Py.

(* ================================================================== *)
(** ** The outside world *)

(** The response of [head_object]: every entry may be missing. *)
Record head_response (datetime : Type) : Type := {
  ContentType : option str;
  ContentLength : option Z;
  LastModified : option datetime;
  ETag : option str;
  Metadata : option (list (str * str))
}.

(** What the module imports and the process-wide clients it builds when
    it is loaded.  A call takes the world and returns its result, or the
    exception it raises, with the next world.
    - [s3_get_object] is [get_object] followed by [Body].[read()];
    - [bedrock_invoke_model] is [invoke_model] followed by
      [body].[read()];
    - [epoch_seconds d] is [int(d.timestamp())]. *)
Class Services : Type := {
  W : Type;
  datetime : Type;
  s3_head_object : pyval -> str -> W -> outcome (head_response datetime) * W;
  s3_get_object : pyval -> str -> W -> outcome bytes * W;
  bedrock_invoke_model : str -> str -> W -> outcome bytes * W;
  table_put_item : pyval -> W -> outcome unit * W;
  uuid4 : W -> str * W;
  datetime_now : W -> datetime * W;
  isoformat : datetime -> str;
  epoch_seconds : datetime -> Z;
  unquote_plus : str -> str;
  guess_type : str -> option str;
  b64encode : bytes -> str;
  json_dumps : pyval -> str;
  json_loads : bytes -> outcome pyval;
  repr : pyval -> str;
  BEDROCK_MODEL_ID : str
}.

Inductive level : Type := Info | Warning | Error.

(** The calls that leave the process, and the log lines. *)
Inductive event : Type :=
| EvHeadObject (bucket : pyval) (key : str)
| EvGetObject (bucket : pyval) (key : str)
| EvInvokeModel (model_id : str) (body : str)
| EvPutItem (item : pyval)
| EvLog (lvl : level) (msg : str).

Definition is_invoke_model (ev : event) : bool :=
  match ev with EvInvokeModel _ _ => true | _ => false end.

(* ================================================================== *)
(** ** The state-and-exception monad *)

Section Monad.
Context {SV : Services}.

Record state : Type := { world : W; trace : list event }.

Definition M (A : Type) : Type := state -> outcome A * state.

Definition ret {A} (a : A) : M A := fun st => (Ok a, st).

Definition raise {A} (e : exn) : M A := fun st => (Raise e, st).

Definition bind {A B} (m : M A) (k : A -> M B) : M B :=
  fun st =>
    match m st with
    | (Ok a, st') => k a st'
    | (Raise e, st') => (Raise e, st')
    end.

(** [try: m  except Exception as e: h e] *)
Definition try_catch {A} (m : M A) (h : exn -> M A) : M A :=
  fun st =>
    match m st with
    | (Ok a, st') => (Ok a, st')
    | (Raise e, st') => h e st'
    end.

(** A pure computation that may raise. *)
Definition lift {A} (r : outcome A) : M A := fun st => (r, st).

(** A call to a service: recorded in the trace, answered by the world. *)
Definition call {A} (ev : event) (f : W -> outcome A * W) : M A :=
  fun st =>
    let (r, w') := f (world st) in
    (r, {| world := w'; trace := trace st ++ [ev] |}).

(** Reading the clock or the random source. *)
Definition sample {A} (f : W -> A * W) : M A :=
  fun st =>
    let (a, w') := f (world st) in
    (Ok a, {| world := w'; trace := trace st |}).

Definition log (lvl : level) (msg : str) : M unit :=
  fun st =>
    (Ok tt, {| world := world st; trace := trace st ++ [EvLog lvl msg] |}).

End Monad.

Declare Scope monad_scope.
Delimit Scope monad_scope with monad.
Notation "x <- m ;; k" := (bind m (fun x => k))
  (at level 61, m at next level, right associativity) : monad_scope.
Notation "m ;; k" := (bind m (fun _ => k))
  (at level 61, right associativity) : monad_scope.

(* ================================================================== *)
(** ** The data of the pipeline *)

(** The dict returned by [get_document_metadata].  [content_type] is
    [None] when Python's value is [None]. *)
Record document_metadata : Type := {
  content_type : option str;
  content_length : Z;
  last_modified : str;
  etag : str;
  metadata : list (str * str)
}.

(** The dict returned by [process_s3_record]: one of two shapes, told
    apart by ['status']. *)
Inductive processing_result : Type :=
| Processed (document_id : str) (bucket : pyval) (key : str)
            (text_length summary_length : Z)
| Failed (bucket : pyval) (key : str) (error : str).

(** The dict returned by [lambda_handler]. *)
Record response : Type := { statusCode : Z; body : str }.

Definition kv (k : string) (v : pyval) : str * pyval := (lit k, v).
Definition pstr (s : string) : pyval := PStr (lit s).

Definition metadata_to_py (m : document_metadata) : pyval :=
  PDict [ kv "content_type" (Py.opt_str (content_type m));
          kv "content_length" (PInt (content_length m));
          kv "last_modified" (PStr (last_modified m));
          kv "etag" (PStr (etag m));
          kv "metadata"
             (PDict (map (fun p => (fst p, PStr (snd p))) (metadata m))) ].

Definition result_to_py (r : processing_result) : pyval :=
  match r with
  | Processed document_id bucket key text_length summary_length =>
      PDict [ kv "document_id" (PStr document_id);
              kv "bucket" bucket;
              kv "key" (PStr key);
              kv "status" (pstr "processed");
              kv "text_length" (PInt text_length);
              kv "summary_length" (PInt summary_length) ]
  | Failed bucket key error =>
      PDict [ kv "bucket" bucket;
              kv "key" (PStr key);
              kv "status" (pstr "error");
              kv "error" (PStr error) ]
  end.

Definition is_processed (r : processing_result) : bool :=
  match r with Processed _ _ _ _ _ => true | Failed _ _ _ => false end.

(** A line of a triple-quoted literal of the source: the line break that
    precedes it, its eight spaces of indentation, its text. *)
Definition indent : str := lit "        ".
Definition src_line (s : string) : str := nl ++ indent ++ lit s.

(** A line with nothing after its indentation; the last one is followed
    by the closing quotes. *)
Definition blank_line : str := nl ++ indent.

(** [{v}] in an f-string. *)
Definition format_value `{Services} (v : pyval) : str :=
  match v with
  | PStr s => s
  | _ => repr v
  end.

(* ================================================================== *)
(** ** The pipeline *)

Section Pipeline.
Context {SV : Services}.
Local Open Scope monad_scope.

(** *** [extract_text_directly] *)
Definition extract_text_directly (bucket : pyval) (key : str) : M str :=
  try_catch
    (content <- call (EvGetObject bucket key) (s3_get_object bucket key) ;;
     text <- lift (decode_text content) ;;
     ret text)
    (fun e =>
       log Error (lit "Error reading file directly: " ++ Py.exn_str e) ;;
       ret (lit "Unable to extract text from file: " ++ Py.exn_str e)).

(** *** [extract_text_with_bedrock_data_automation] *)

(** [key.lower().split('.')[-1]] *)
Definition file_extension (key : str) : str :=
  last_item (split 46 (lower key)).

Definition media_type_map : list (str * str) :=
  [ (lit "pdf", lit "application/pdf");
    (lit "png", lit "image/png");
    (lit "jpg", lit "image/jpeg");
    (lit "jpeg", lit "image/jpeg");
    (lit "tiff", lit "image/tiff");
    (lit "gif", lit "image/gif");
    (lit "bmp", lit "image/bmp") ].

(** [media_type_map.get(ext, default)] *)
Fixpoint map_get (m : list (str * str)) (k : str) (default : str) : str :=
  match m with
  | [] => default
  | (k', v) :: rest => if str_eqb k k' then v else map_get rest k default
  end.

Definition extraction_prompt : str :=
  src_line "Please extract all text content from this document. "
  ++ src_line "Provide the extracted text in a clean, readable format."
  ++ src_line "Maintain the original structure and formatting where possible."
  ++ src_line "If there are tables, preserve their structure."
  ++ src_line "If there are multiple sections, clearly separate them."
  ++ blank_line
  ++ src_line "Return only the extracted text content, without any additional commentary."
  ++ blank_line.

Definition extraction_request (media_type document_b64 : str) : pyval :=
  PDict [ kv "anthropic_version" (pstr "bedrock-2023-05-31");
          kv "max_tokens" (PInt 8000);
          kv "messages"
             (PList [ PDict [ kv "role" (pstr "user");
                              kv "content"
                                 (PList [ PDict [ kv "type" (pstr "text");
                                                  kv "text" (PStr extraction_prompt) ];
                                          PDict [ kv "type" (pstr "image");
                                                  kv "source"
                                                     (PDict [ kv "type" (pstr "base64");
                                                              kv "media_type" (PStr media_type);
                                                              kv "data" (PStr document_b64) ]) ] ]) ] ]);
          kv "temperature" (PFloat 0.1%float);
          kv "top_p" (PFloat 0.9%float) ].

(** ['content' in response_body and response_body['content']], as the
    condition of an [if]. *)
Definition has_content (response_body : pyval) : M bool :=
  present <- lift (Py.contains_str (lit "content") response_body) ;;
  if present : bool then
    c <- lift (Py.getitem_str response_body (lit "content")) ;;
    ret (Py.truthy c)
  else ret false.

(** [response_body['content'][0]['text']] *)
Definition first_text (response_body : pyval) : M pyval :=
  c <- lift (Py.getitem_str response_body (lit "content")) ;;
  c0 <- lift (Py.getitem_0 c) ;;
  lift (Py.getitem_str c0 (lit "text")).

(** The [try] block of the function, up to and including the call of the
    endpoint. *)
Definition vision_request (bucket : pyval) (key : str) : M bytes :=
  document_content <- call (EvGetObject bucket key) (s3_get_object bucket key) ;;
  let document_b64 := b64encode document_content in
  let file_extension := file_extension key in
  let media_type :=
    map_get media_type_map file_extension (lit "application/octet-stream") in
  let request_body := extraction_request media_type document_b64 in
  let model_id := BEDROCK_MODEL_ID in
  call (EvInvokeModel model_id (json_dumps request_body))
       (bedrock_invoke_model model_id (json_dumps request_body)).

(** The rest of the [try] block: reading the answer. *)
Definition vision_answer (raw : bytes) : M str :=
  response_body <- lift (json_loads raw) ;;
  ok <- has_content response_body ;;
  if ok : bool then
    extracted_text <- first_text response_body ;;
    n <- lift (Py.length_of extracted_text) ;;
    log Info (lit "Successfully extracted text using Bedrock Data Automation: "
              ++ str_of_Z n ++ lit " characters") ;;
    lift (Py.strip_of extracted_text)
  else
    log Warning (lit "Empty response from Bedrock Data Automation") ;;
    ret (lit "Unable to extract text - empty response from Bedrock").

Definition extract_text_with_bedrock_data_automation
    (bucket : pyval) (key : str) : M str :=
  try_catch
    (raw <- vision_request bucket key ;;
     vision_answer raw)
    (fun e =>
       log Error (lit "Error with Bedrock Data Automation: " ++ Py.exn_str e) ;;
       extract_text_directly bucket key).

(** *** [extract_text_from_document] *)
Definition vision_extensions : list str :=
  [ lit "pdf"; lit "png"; lit "jpg"; lit "jpeg"; lit "tiff"; lit "gif";
    lit "bmp" ].

Definition uses_vision (key : str) : bool :=
  str_in (file_extension key) vision_extensions.

Definition extract_text_from_document (bucket : pyval) (key : str) : M str :=
  try_catch
    (log Info (lit "Extracting text from document: " ++ key) ;;
     let file_extension := file_extension key in
     if str_in file_extension vision_extensions
     then extract_text_with_bedrock_data_automation bucket key
     else extract_text_directly bucket key)
    (fun e =>
       log Error (lit "Error extracting text: " ++ Py.exn_str e) ;;
       ret (lit "Error extracting text: " ++ Py.exn_str e)).

(** *** [get_document_metadata] *)
Definition or_default {A} (o : option A) (d : A) : A :=
  match o with Some a => a | None => d end.

Definition is_empty (s : str) : bool :=
  match s with [] => true | _ => false end.

Definition get_document_metadata (bucket : pyval) (key : str)
  : M document_metadata :=
  try_catch
    (response <- call (EvHeadObject bucket key) (s3_head_object bucket key) ;;
     let content_type0 := or_default (ContentType response) [] in
     let content_type :=
       if is_empty content_type0 then guess_type key else Some content_type0 in
     now <- sample datetime_now ;;
     ret {| content_type := content_type;
            content_length := or_default (ContentLength response) 0%Z;
            last_modified := isoformat (or_default (LastModified response) now);
            etag := strip_quotes (or_default (ETag response) []);
            metadata := or_default (Metadata response) [] |})
    (fun e =>
       log Error (lit "Error getting document metadata: " ++ Py.exn_str e) ;;
       now <- sample datetime_now ;;
       ret {| content_type := Some (lit "unknown");
              content_length := 0%Z;
              last_modified := isoformat now;
              etag := [];
              metadata := [] |}).

(** *** [generate_summary_with_bedrock] *)

(** The f-string of the function, around the document text [doc]. *)
Definition summary_prompt_head : str :=
  src_line "Please provide a comprehensive summary of the following document. "
  ++ src_line "Include the main topics, key points, and any important details."
  ++ src_line "Keep the summary clear and well-structured."
  ++ blank_line
  ++ src_line "Document text:"
  ++ blank_line.

Definition summary_prompt_tail : str :=
  lit "  # Limit text to avoid token limits"
  ++ blank_line
  ++ src_line "Summary:"
  ++ blank_line.

Definition summary_prompt (text : str) : str :=
  summary_prompt_head ++ slice_to 8000 text ++ summary_prompt_tail.

Definition summary_request (prompt : str) : pyval :=
  PDict [ kv "anthropic_version" (pstr "bedrock-2023-05-31");
          kv "max_tokens" (PInt 1000);
          kv "messages"
             (PList [ PDict [ kv "role" (pstr "user");
                              kv "content" (PStr prompt) ] ]);
          kv "temperature" (PFloat 0.3%float);
          kv "top_p" (PFloat 0.9%float) ].

(** [not text or len(text.strip()) < 50] *)
Definition too_short (text : str) : bool :=
  is_empty text || (len (strip text) <? 50)%Z.

Definition summary_answer (raw : bytes) : M str :=
  response_body <- lift (json_loads raw) ;;
  ok <- has_content response_body ;;
  if ok : bool then
    summary <- first_text response_body ;;
    lift (Py.strip_of summary)
  else
    ret (lit "Unable to generate summary - empty response from model.").

Definition generate_summary_with_bedrock (text : str) : M str :=
  try_catch
    (if too_short text
     then ret (lit "Text too short to summarize effectively.")
     else
       let prompt := summary_prompt text in
       let request_body := summary_request prompt in
       raw <- call (EvInvokeModel BEDROCK_MODEL_ID (json_dumps request_body))
                   (bedrock_invoke_model BEDROCK_MODEL_ID
                                         (json_dumps request_body)) ;;
       summary_answer raw)
    (fun e =>
       log Error (lit "Error generating summary with Bedrock: " ++ Py.exn_str e) ;;
       ret (lit "Error generating summary: " ++ Py.exn_str e)).

(** *** [store_document_data] *)
Definition document_item (document_id : str) (bucket : pyval) (key : str)
    (md : document_metadata) (raw_text summary : str)
    (upload_time processed_time : datetime) : pyval :=
  PDict [ kv "document_id" (PStr document_id);
          kv "bucket" bucket;
          kv "object_key" (PStr key);
          kv "upload_timestamp" (PInt (epoch_seconds upload_time));
          kv "metadata" (metadata_to_py md);
          kv "raw_text" (PStr raw_text);
          kv "summary" (PStr summary);
          kv "processed_at" (PStr (isoformat processed_time));
          kv "text_length" (PInt (len raw_text));
          kv "summary_length" (PInt (len summary)) ].

Definition store_document_data (document_id : str) (bucket : pyval)
    (key : str) (md : document_metadata) (raw_text summary : str) : M unit :=
  try_catch
    (t1 <- sample datetime_now ;;
     t2 <- sample datetime_now ;;
     let item := document_item document_id bucket key md raw_text summary t1 t2 in
     call (EvPutItem item) (table_put_item item) ;;
     log Info (lit "Document data stored successfully: " ++ document_id))
    (fun e =>
       log Error (lit "Error storing document data: " ++ Py.exn_str e) ;;
       raise e).

(** *** [process_s3_record] *)

(** [record['s3']['bucket']['name']] *)
Definition record_bucket (record : pyval) : outcome pyval :=
  match Py.getitem_str record (lit "s3") with
  | Ok s3 =>
      match Py.getitem_str s3 (lit "bucket") with
      | Ok b => Py.getitem_str b (lit "name")
      | Raise e => Raise e
      end
  | Raise e => Raise e
  end.

(** [unquote_plus(k)]: the library function is defined on strings. *)
Definition unquote_plus_of (k : pyval) : outcome str :=
  match k with
  | PStr s => Ok (unquote_plus s)
  | _ =>
      Raise (AttributeError (lit "'" ++ Py.type_name k
                             ++ lit "' object has no attribute 'replace'"))
  end.

(** [unquote_plus(record['s3']['object']['key'])] *)
Definition record_key (record : pyval) : outcome str :=
  match Py.getitem_str record (lit "s3") with
  | Ok s3 =>
      match Py.getitem_str s3 (lit "object") with
      | Ok o =>
          match Py.getitem_str o (lit "key") with
          | Ok k => unquote_plus_of k
          | Raise e => Raise e
          end
      | Raise e => Raise e
      end
  | Raise e => Raise e
  end.

(** The stages between reading the record and writing the item; each of
    them handles its own failures. *)
Definition upstream (bucket : pyval) (key : str)
  : M (str * document_metadata * str * str) :=
  document_id <- sample uuid4 ;;
  document_metadata <- get_document_metadata bucket key ;;
  extracted_text <- extract_text_from_document bucket key ;;
  summary <- generate_summary_with_bedrock extracted_text ;;
  ret (document_id, document_metadata, extracted_text, summary).

Definition process_s3_record (record : pyval) : M processing_result :=
  try_catch
    (bucket <- lift (record_bucket record) ;;
     key <- lift (record_key record) ;;
     log Info (lit "Processing document: " ++ key ++ lit " from bucket: "
               ++ format_value bucket) ;;
     up <- upstream bucket key ;;
     let '(document_id, document_metadata, extracted_text, summary) := up in
     store_document_data document_id bucket key document_metadata
                         extracted_text summary ;;
     ret (Processed document_id bucket key (len extracted_text) (len summary)))
    (fun e =>
       log Error (lit "Error processing S3 record: " ++ Py.exn_str e) ;;
       bucket <- lift (record_bucket record) ;;
       key <- lift (record_key record) ;;
       ret (Failed bucket key (Py.exn_str e))).

(** *** [lambda_handler] *)

Definition is_s3_source (src : pyval) : bool := Py.eq_str src (lit "aws:s3").

(** The [for] loop over [event['Records']]; [results] is the list built
    so far. *)
Fixpoint process_records (records : list pyval)
    (results : list processing_result) : M (list processing_result) :=
  match records with
  | [] => ret results
  | record :: rest =>
      src <- lift (Py.getitem_str record (lit "eventSource")) ;;
      if is_s3_source src
      then result <- process_s3_record record ;;
           process_records rest (results ++ [result])
      else process_records rest results
  end.

Definition success_body (results : list processing_result) : pyval :=
  PDict [ kv "message" (pstr "Documents processed successfully");
          kv "results" (PList (map result_to_py results)) ].

Definition failure_body (e : exn) : pyval :=
  PDict [ kv "error" (PStr (Py.exn_str e)) ].

Definition lambda_handler (event : pyval) : M response :=
  try_catch
    (log Info (lit "Processing event: " ++ json_dumps event) ;;
     records_v <- lift (Py.getitem_str event (lit "Records")) ;;
     records <- lift (Py.iterate records_v) ;;
     results <- process_records records [] ;;
     log Info (lit "Processing completed. Results: "
               ++ repr (PList (map result_to_py results))) ;;
     ret {| statusCode := 200; body := json_dumps (success_body results) |})
    (fun e =>
       log Error (lit "Error processing event: " ++ Py.exn_str e) ;;
       ret {| statusCode := 500; body := json_dumps (failure_body e) |}).

End Pipeline.

(* ================================================================== *)
(** ** A small concrete world, for running the pipeline *)

Module Fixture.

Definition text_bytes (s : string) : bytes := list_byte_of_string s.

(** Objects of the test bucket, by key. *)
Definition object_content (key : str) : bytes :=
  if str_eqb key (lit "notes.txt") then text_bytes "Hello world"
  else if str_eqb key (lit "latin.txt") then [Byte.xe9; Byte.x74; Byte.xe9]
  else text_bytes
    "Quarterly report: revenue grew in every region and costs stayed flat.".

Definition item_key (item : pyval) : str :=
  match Py.getitem_str item (lit "object_key") with
  | Ok (PStr k) => k
  | _ => []
  end.

(** [head_object] fails for the key [missing.txt]; [get_object] fails for
    [gone.txt]; [put_item] fails for an item whose key is [bad.txt]; the
    inference endpoint answers only when [bedrock_up]. *)
Definition services (bedrock_up : bool) : Services := {|
  W := nat;
  datetime := nat;
  s3_head_object := fun _ key w =>
    if str_eqb key (lit "missing.txt")
    then (Raise (ServiceError (lit "Not Found")), S w)
    else (Ok {| ContentType := None;
                ContentLength := Some 11%Z;
                LastModified := Some 7%nat;
                ETag := Some ([34] ++ lit "abc" ++ [34]);
                Metadata := None |}, S w);
  s3_get_object := fun _ key w =>
    if str_eqb key (lit "gone.txt")
    then (Raise (ServiceError (lit "NoSuchKey")), S w)
    else (Ok (object_content key), S w);
  bedrock_invoke_model := fun _ _ w =>
    if bedrock_up
    then (Ok (text_bytes " A summary. "), S w)
    else (Raise (ServiceError (lit "ThrottlingException")), S w);
  table_put_item := fun item w =>
    if str_eqb (item_key item) (lit "bad.txt")
    then (Raise (ServiceError (lit "ProvisionedThroughputExceeded")), S w)
    else (Ok tt, S w);
  uuid4 := fun w => (lit "doc-" ++ str_of_Z (Z.of_nat w), S w);
  datetime_now := fun w => (w, S w);
  isoformat := fun d => str_of_Z (Z.of_nat d);
  epoch_seconds := Z.of_nat;
  unquote_plus := fun s => s;
  guess_type := fun key =>
    if str_eqb (last_item (split 46 key)) (lit "txt")
    then Some (lit "text/plain") else None;
  b64encode := map Byte.to_N;
  json_dumps := fun v =>
    match v with
    | PDict ((k, _) :: _) => lit "{" ++ k ++ lit ": ...}"
    | _ => lit "?"
    end;
  json_loads := fun raw =>
    Ok (PDict [ kv "content" (PList [ PDict [ kv "text" (PStr (map Byte.to_N raw)) ] ]) ]);
  repr := fun _ => lit "<value>";
  BEDROCK_MODEL_ID := lit "anthropic.claude-3-sonnet"
|}.

Definition start (sv : Services) (w : @W sv) : @state sv :=
  {| world := w; trace := [] |}.

(** One record of an S3 upload notification. *)
Definition s3_record (bucket key : string) : pyval :=
  PDict [ kv "eventSource" (pstr "aws:s3");
          kv "s3" (PDict [ kv "bucket" (PDict [ kv "name" (pstr bucket) ]);
                           kv "object" (PDict [ kv "key" (pstr key) ]) ]) ].

(** A record that names its source and nothing else. *)
Definition bare_record : pyval :=
  PDict [ kv "eventSource" (pstr "aws:s3") ].

(** A record that does not name its source. *)
Definition untagged_record (bucket key : string) : pyval :=
  PDict [ kv "s3" (PDict [ kv "bucket" (PDict [ kv "name" (pstr bucket) ]);
                           kv "object" (PDict [ kv "key" (pstr key) ]) ]) ].

Definition sns_record : pyval :=
  PDict [ kv "eventSource" (pstr "aws:sns") ].

Definition event_of (records : list pyval) : pyval :=
  PDict [ kv "Records" (PList records) ].

End Fixture.

(** Batches, texts and readers used with that world. *)
Module Runs.
Import Fixture.

Definition up : Services := services true.
Definition down : Services := services false.

Definition batch : list pyval :=
  [ s3_record "uploads" "notes.txt";
    sns_record;
    s3_record "uploads" "bad.txt";
    s3_record "uploads" "latin.txt" ].

Definition broken_batch : list pyval :=
  [ s3_record "uploads" "notes.txt"; untagged_record "uploads" "latin.txt" ].

Definition truncated_batch : list pyval :=
  [ s3_record "uploads" "notes.txt"; bare_record ].

Definition report : str :=
  lit "Quarterly report: revenue grew in every region and costs stayed flat.".

Definition long_text : str := repeat 97 (N.to_nat 20000).

Definition status_of (r : outcome response * @state up) : Z :=
  match fst r with
  | Ok resp => statusCode resp
  | Raise _ => 0%Z
  end.

Definition content_type_of (r : outcome document_metadata * @state up)
  : option (option str) :=
  match fst r with
  | Ok md => Some (content_type md)
  | Raise _ => None
  end.

End Runs.

(** Evaluate the left-hand side of an equation and let the right-hand
    side take its value. *)
Ltac evaluate :=
  match goal with
  | |- ?lhs = _ =>
      let v := eval vm_compute in lhs in
      transitivity v; [vm_compute; reflexivity | reflexivity]
  end.

(* ================================================================== *)
(** ** Notions used to state the properties *)

(** The extension as the design document words it: the lower-cased text
    after the last ['.'] of the key, and the empty string for a key that
    has no ['.']. *)
Fixpoint after_last_dot (s : str) : option str :=
  match s with
  | [] => None
  | c :: t =>
      match after_last_dot t with
      | Some suffix => Some suffix
      | None => if c =? 46 then Some t else None
      end
  end.

Definition documented_extension (key : str) : str :=
  match after_last_dot key with
  | Some suffix => lower suffix
  | None => []
  end.

Definition documented_uses_vision (key : str) : bool :=
  str_in (documented_extension key) vision_extensions.

(** The content type as the design document words it: the reported type
    when there is one, else the guessed one, else ["unknown"]. *)
Definition documented_content_type (reported guessed : option str) : option str :=
  match reported with
  | Some ct => Some ct
  | None =>
      match guessed with
      | Some g => Some g
      | None => Some (lit "unknown")
      end
  end.

Section Statements.
Context {SV : Services}.

(** A computation that returns a value from every state: it never
    raises. *)
Definition total {A} (m : M A) : Prop :=
  forall st, exists a st', m st = (Ok a, st').

(** The state after some more events. *)
Definition after (st : state) (w : W) (evs : list event) : state :=
  {| world := w; trace := trace st ++ evs |}.

(** [record['eventSource'] == 'aws:s3'] can be evaluated and holds. *)
Definition is_upload_event (record : pyval) : bool :=
  match Py.getitem_str record (lit "eventSource") with
  | Ok src => is_s3_source src
  | Raise _ => false
  end.

(** A record that names its source and, when it is an upload event, its
    bucket and a string as its key. *)
Definition well_formed_record (record : pyval) : bool :=
  match Py.getitem_str record (lit "eventSource") with
  | Ok src =>
      if is_s3_source src then
        match record_bucket record, record_key record with
        | Ok _, Ok _ => true
        | _, _ => false
        end
      else true
  | Raise _ => false
  end.

Definition processing_message (bucket : pyval) (key : str) : str :=
  lit "Processing document: " ++ key ++ lit " from bucket: "
  ++ format_value bucket.

(** The degraded metadata, stamped [stamp]. *)
Definition degraded_metadata (stamp : str) : document_metadata :=
  {| content_type := Some (lit "unknown");
     content_length := 0%Z;
     last_modified := stamp;
     etag := [];
     metadata := [] |}.

(** What one upload notification, met in state [st], contributes: the
    stages before the write run to their end, the item is put, and the
    result says whether [put_item] returned or raised. *)
Inductive item_outcome (record : pyval) (st : state)
  : processing_result -> state -> Prop :=
| item_written bucket key document_id md text summary st4 t1 w1 t2 w2 u w3 :
    record_bucket record = Ok bucket ->
    record_key record = Ok key ->
    upstream bucket key
      (after st (world st) [EvLog Info (processing_message bucket key)])
      = (Ok (document_id, md, text, summary), st4) ->
    datetime_now (world st4) = (t1, w1) ->
    datetime_now w1 = (t2, w2) ->
    table_put_item (document_item document_id bucket key md text summary t1 t2) w2
      = (Ok u, w3) ->
    item_outcome record st
      (Processed document_id bucket key (len text) (len summary))
      (after st4 w3
         [ EvPutItem (document_item document_id bucket key md text summary t1 t2);
           EvLog Info (lit "Document data stored successfully: " ++ document_id) ])
| item_write_failed bucket key document_id md text summary st4 t1 w1 t2 w2 e w3 :
    record_bucket record = Ok bucket ->
    record_key record = Ok key ->
    upstream bucket key
      (after st (world st) [EvLog Info (processing_message bucket key)])
      = (Ok (document_id, md, text, summary), st4) ->
    datetime_now (world st4) = (t1, w1) ->
    datetime_now w1 = (t2, w2) ->
    table_put_item (document_item document_id bucket key md text summary t1 t2) w2
      = (Raise e, w3) ->
    item_outcome record st
      (Failed bucket key (Py.exn_str e))
      (after st4 w3
         [ EvPutItem (document_item document_id bucket key md text summary t1 t2);
           EvLog Error (lit "Error storing document data: " ++ Py.exn_str e);
           EvLog Error (lit "Error processing S3 record: " ++ Py.exn_str e) ]).

(** A batch, record by record: a record that is not an upload event
    contributes nothing; an upload event contributes its own outcome and
    hands its final state to the next record. *)
Inductive batch_run : list pyval -> state -> list processing_result -> state -> Prop :=
| batch_done st : batch_run [] st [] st
| batch_skip record src rest st results st' :
    Py.getitem_str record (lit "eventSource") = Ok src ->
    is_s3_source src = false ->
    batch_run rest st results st'
    -> batch_run (record :: rest) st results st'
| batch_item record src rest st result st1 results st' :
    Py.getitem_str record (lit "eventSource") = Ok src ->
    is_s3_source src = true ->
    item_outcome record st result st1 ->
    batch_run rest st1 results st' ->
    batch_run (record :: rest) st (result :: results) st'.

(** [result] is the entry of [record]: it carries the bucket and key of
    the record and one of the two status tags. *)
Definition result_of_record (record : pyval) (result : processing_result) : Prop :=
  exists bucket key,
    record_bucket record = Ok bucket /\ record_key record = Ok key /\
    ((exists document_id text_length summary_length,
         result = Processed document_id bucket key text_length summary_length)
     \/ (exists error, result = Failed bucket key error)).

Definition upload_events (records : list pyval) : list pyval :=
  filter is_upload_event records.

(** The answer of the handler when the batch went through. *)
Definition success_response (results : list processing_result) : response :=
  {| statusCode := 200; body := json_dumps (success_body results) |}.

End Statements.

(** The dispatcher property for records of any shape: whatever the
    records are, the handler answers 200 with one result per upload
    event. *)
Definition isolates_any_record_shape : Prop :=
  forall (SV : Services) (records : list pyval) (st : state),
  exists results st',
    lambda_handler (PDict [ kv "Records" (PList records) ]) st
      = (Ok (success_response results), st')
    /\ Forall2 result_of_record (upload_events records) results.

(** The content-type rule with ["unknown"] as the last resort. *)
Definition content_type_falls_back_to_unknown : Prop :=
  forall (SV : Services) (bucket : pyval) (key : str) (st : state)
         (resp : head_response datetime) (w1 : W),
    s3_head_object bucket key (world st) = (Ok resp, w1) ->
    exists md st',
      get_document_metadata bucket key st = (Ok md, st')
      /\ content_type md
         = documented_content_type (ContentType resp) (guess_type key).

(* ================================================================== *)
(** ** The read path: [get_document_by_id] *)

(** [table.get_item(Key=key)]: the response of the table, or the
    exception it raises. *)
Class TableReader (SV : Services) : Type := {
  table_get_item : pyval -> W -> outcome pyval * W
}.

Module PyDict.

(** [v.get(k)]: the value under [k], [None] when there is none. *)
Definition get (v : pyval) (k : str) : outcome pyval :=
  match v with
  | PDict kvs =>
      Ok (match Py.dict_get kvs k with Some x => x | None => PNone end)
  | _ =>
      Raise (AttributeError (lit "'" ++ Py.type_name v
                             ++ lit "' object has no attribute 'get'"))
  end.

End PyDict.

Section ReadPath.
Context {SV : Services} {TR : TableReader SV}.
Local Open Scope monad_scope.

(** A call of the table's read operation; reads are not among the events
    of the trace. *)
Definition read {A} (f : W -> outcome A * W) : M A :=
  fun st =>
    let (r, w') := f (world st) in
    (r, {| world := w'; trace := trace st |}).

(** [{'document_id': document_id}] *)
Definition document_key (document_id : str) : pyval :=
  PDict [ kv "document_id" (PStr document_id) ].

(** The value returned is a [pyval]: [PNone] is Python's [None]. *)
Definition get_document_by_id (document_id : str) : M pyval :=
  try_catch
    (response <- read (table_get_item (document_key document_id)) ;;
     lift (PyDict.get response (lit "Item")))
    (fun e =>
       log Error (lit "Error retrieving document: " ++ Py.exn_str e) ;;
       ret PNone).

End ReadPath.

(* ================================================================== *)
(** ** Counting the calls that leave the process *)

Definition is_head_object (ev : event) : bool :=
  match ev with EvHeadObject _ _ => true | _ => false end.

Definition is_get_object (ev : event) : bool :=
  match ev with EvGetObject _ _ => true | _ => false end.

Definition is_put_item (ev : event) : bool :=
  match ev with EvPutItem _ => true | _ => false end.

Definition is_log (ev : event) : bool :=
  match ev with EvLog _ _ => true | _ => false end.

Definition count (f : event -> bool) (evs : list event) : nat :=
  List.length (filter f evs).

(** How many calls of each kind a computation may make. *)
Record budget : Type := {
  heads : nat;
  gets : nat;
  invokes : nat;
  puts : nat
}.

Definition no_calls : budget :=
  {| heads := 0; gets := 0; invokes := 0; puts := 0 |}.

Definition plus (a b : budget) : budget :=
  {| heads := heads a + heads b;
     gets := gets a + gets b;
     invokes := invokes a + invokes b;
     puts := puts a + puts b |}.

Fixpoint times (n : nat) (b : budget) : budget :=
  match n with
  | O => no_calls
  | S n' => plus b (times n' b)
  end.

Definition within (b : budget) (evs : list event) : Prop :=
  (count is_head_object evs <= heads b)%nat
  /\ (count is_get_object evs <= gets b)%nat
  /\ (count is_invoke_model evs <= invokes b)%nat
  /\ (count is_put_item evs <= puts b)%nat.

(** What one event costs. *)
Definition cost (ev : event) : budget :=
  {| heads := if is_head_object ev then 1 else 0;
     gets := if is_get_object ev then 1 else 0;
     invokes := if is_invoke_model ev then 1 else 0;
     puts := if is_put_item ev then 1 else 0 |}.

(** For one upload notification: one metadata read, two object reads
    (the second one when the vision path falls back), two inference calls
    (extraction and summary), one write. *)
Definition notification_budget : budget :=
  {| heads := 1; gets := 2; invokes := 2; puts := 1 |}.

Section Spending.
Context {SV : Services}.

(** From every state, whatever the result, [m] only appends to the trace,
    and what it appends stays within [b]. *)
Definition spends {A} (m : M A) (b : budget) : Prop :=
  forall st r st',
    m st = (r, st') ->
    exists evs, trace st' = trace st ++ evs /\ within b evs.

(** The number of upload events among the records of an event; [0] when
    the records cannot be read. *)
Definition uploads_of (event : pyval) : nat :=
  match Py.getitem_str event (lit "Records") with
  | Ok records_v =>
      match Py.iterate records_v with
      | Ok records => List.length (upload_events records)
      | Raise _ => O
      end
  | Raise _ => O
  end.

(** The table answers a lookup by identifier with the item that was put
    under it. *)
Definition table_keeps_items {TR : TableReader SV} : Prop :=
  forall item document_id w u w',
    table_put_item item w = (Ok u, w') ->
    Py.getitem_str item (lit "document_id") = Ok (PStr document_id) ->
    exists response w'',
      table_get_item (document_key document_id) w' = (Ok response, w'')
      /\ PyDict.get response (lit "Item") = Ok item.

End Spending.

(** A world whose table is a list of items, the newest first. *)
Module TableWorld.

Definition item_id (item : pyval) : option str :=
  match Py.getitem_str item (lit "document_id") with
  | Ok (PStr s) => Some s
  | _ => None
  end.

Fixpoint lookup (table : list pyval) (document_id : str) : option pyval :=
  match table with
  | [] => None
  | item :: rest =>
      match item_id item with
      | Some s => if str_eqb s document_id then Some item
                  else lookup rest document_id
      | None => lookup rest document_id
      end
  end.

Definition services : Services := {|
  W := nat * list pyval;
  datetime := nat;
  s3_head_object := fun _ _ w =>
    (Raise (ServiceError (lit "Not Found")), w);
  s3_get_object := fun _ key w => (Ok (Fixture.object_content key), w);
  bedrock_invoke_model := fun _ _ w =>
    (Raise (ServiceError (lit "ThrottlingException")), w);
  table_put_item := fun item w => (Ok tt, (fst w, item :: snd w));
  uuid4 := fun w =>
    (lit "doc-" ++ str_of_Z (Z.of_nat (fst w)), (S (fst w), snd w));
  datetime_now := fun w => (fst w, (S (fst w), snd w));
  isoformat := fun d => str_of_Z (Z.of_nat d);
  epoch_seconds := Z.of_nat;
  unquote_plus := fun s => s;
  guess_type := fun _ => None;
  b64encode := map Byte.to_N;
  json_dumps := fun _ => lit "{}";
  json_loads := fun _ => Raise (ValueError (lit "Expecting value"));
  repr := fun _ => lit "<value>";
  BEDROCK_MODEL_ID := lit "anthropic.claude-3-sonnet"
|}.

Definition reader : TableReader services := {|
  table_get_item := fun key (w : @W services) =>
    match item_id key with
    | Some document_id =>
        match lookup (snd w) document_id with
        | Some item => (Ok (PDict [ kv "Item" item ]), w)
        | None => (Ok (PDict []), w)
        end
    | None => (Raise (ServiceError (lit "ValidationException")), w)
    end
|}.

(** A reader whose table cannot be reached. *)
Definition unreachable_reader : TableReader services := {|
  table_get_item := fun _ (w : @W services) =>
    (Raise (ServiceError (lit "ResourceNotFoundException")), w)
|}.

Definition empty_table : @W services := (0%nat, @nil pyval).

Definition start : @state services := {| world := empty_table; trace := [] |}.

End TableWorld.

(* ================================================================== *)
(** ** Shapes of records, for the further properties *)

Section RecordShapes.
Context {SV : Services}.

(** The two reads that [process_s3_record] makes of its record, in the
    order it makes them: the bucket, then the key. *)
Definition record_fields (record : pyval) : outcome (pyval * str) :=
  match record_bucket record with
  | Ok bucket =>
      match record_key record with
      | Ok key => Ok (bucket, key)
      | Raise e => Raise e
      end
  | Raise e => Raise e
  end.

(** A record that names a source other than S3. *)
Definition names_other_source (record : pyval) : bool :=
  match Py.getitem_str record (lit "eventSource") with
  | Ok src => negb (is_s3_source src)
  | Raise _ => false
  end.

(** A record at which the loop of the handler stops with [e]: its source
    cannot be read, or it is an upload event whose bucket or key cannot
    be read. *)
Definition unreadable (record : pyval) (e : exn) : Prop :=
  Py.getitem_str record (lit "eventSource") = Raise e
  \/ (exists src,
         Py.getitem_str record (lit "eventSource") = Ok src
         /\ is_s3_source src = true
         /\ record_fields record = Raise e).

Definition failure_response (e : exn) : response :=
  {| statusCode := 500; body := json_dumps (failure_body e) |}.

Definition entry_log (incoming : pyval) : event :=
  EvLog Info (lit "Processing event: " ++ json_dumps incoming).

Definition exit_log (results : list processing_result) : event :=
  EvLog Info (lit "Processing completed. Results: "
              ++ repr (PList (map result_to_py results))).

Definition abort_log (e : exn) : event :=
  EvLog Error (lit "Error processing event: " ++ Py.exn_str e).

End RecordShapes.

(** The media types of the lookup table of the Vision-Inference
    Extractor. *)
Definition vision_media_types : list str :=
  [ lit "application/pdf"; lit "image/png"; lit "image/jpeg";
    lit "image/tiff"; lit "image/gif"; lit "image/bmp" ].

(** Inputs and runs on the concrete worlds. *)
Module Samples.

Definition st_up : @state Runs.up := Fixture.start Runs.up 0%nat.
Definition st_down : @state Runs.down := Fixture.start Runs.down 0%nat.

Definition no_records : pyval := PDict [ kv "Detail" (pstr "none") ].

Definition other_sources : list pyval :=
  [ Fixture.sns_record; Fixture.sns_record ].

Definition notes_record : pyval := Fixture.s3_record "uploads" "notes.txt".

Definition uploads : pyval := pstr "uploads".


Definition batch_answer : outcome response * @state Runs.up :=
  lambda_handler (SV := Runs.up) (Fixture.event_of Runs.batch) st_up.

Definition metadata_run : outcome document_metadata * @state Runs.up :=
  get_document_metadata (SV := Runs.up) uploads (lit "notes.txt") st_up.

(** What the store of the fixture reports for every object but
    [missing.txt]. *)
Definition reported : head_response nat :=
  {| ContentType := None;
     ContentLength := Some 11%Z;
     LastModified := Some 7%nat;
     ETag := Some ([34] ++ lit "abc" ++ [34]);
     Metadata := None |}.

(** The answer of the endpoint of the fixture, parsed. *)
Definition answer_block : list (str * pyval) :=
  [ kv "text" (PStr (map Byte.to_N (Fixture.text_bytes " A summary. "))) ].

Definition answer : list (str * pyval) :=
  [ kv "content" (PList [ PDict answer_block ]) ].

Definition table_run
  : outcome processing_result * @state TableWorld.services :=
  process_s3_record (SV := TableWorld.services) notes_record TableWorld.start.

End Samples.

(* ================================================================== *)
(** ** What a rendered result says, and a world that shows its requests *)

(** What the dict of a result must say when it is read key by key, as a
    caller of the handler reads it. *)
Definition entry_describes (result : processing_result) (entry : pyval) : Prop :=
  match result with
  | Processed document_id bucket key text_length summary_length =>
      Py.getitem_str entry (lit "status") = Ok (pstr "processed")
      /\ Py.getitem_str entry (lit "document_id") = Ok (PStr document_id)
      /\ Py.getitem_str entry (lit "bucket") = Ok bucket
      /\ Py.getitem_str entry (lit "key") = Ok (PStr key)
      /\ Py.getitem_str entry (lit "text_length") = Ok (PInt text_length)
      /\ Py.getitem_str entry (lit "summary_length") = Ok (PInt summary_length)
      /\ Py.getitem_str entry (lit "error")
         = Raise (KeyError (lit "'" ++ lit "error" ++ lit "'"))
  | Failed bucket key error =>
      Py.getitem_str entry (lit "status") = Ok (pstr "error")
      /\ Py.getitem_str entry (lit "error") = Ok (PStr error)
      /\ Py.getitem_str entry (lit "bucket") = Ok bucket
      /\ Py.getitem_str entry (lit "key") = Ok (PStr key)
      /\ Py.getitem_str entry (lit "document_id")
         = Raise (KeyError (lit "'" ++ lit "document_id" ++ lit "'"))
  end.

(** The world of [Fixture] with a [json_dumps] that writes every string
    as it is, so that a request body shows the prompt it carries. *)
Module Transcript.

Fixpoint render (v : pyval) : str :=
  match v with
  | PNone => lit "null"
  | PBool b => if b then lit "true" else lit "false"
  | PInt z => str_of_Z z
  | PFloat _ => lit "<float>"
  | PStr s => s
  | PList l =>
      lit "["
      ++ (fix items (l : list pyval) : str :=
            match l with
            | [] => []
            | x :: r => render x ++ lit ", " ++ items r
            end) l
      ++ lit "]"
  | PDict kvs =>
      lit "{"
      ++ (fix entries (kvs : list (str * pyval)) : str :=
            match kvs with
            | [] => []
            | kx :: r =>
                fst kx ++ lit ": " ++ render (snd kx) ++ lit ", " ++ entries r
            end) kvs
      ++ lit "}"
  end.

Definition services : Services := {|
  W := nat;
  datetime := nat;
  s3_head_object := @s3_head_object (Fixture.services true);
  s3_get_object := @s3_get_object (Fixture.services true);
  bedrock_invoke_model := @bedrock_invoke_model (Fixture.services true);
  table_put_item := @table_put_item (Fixture.services true);
  uuid4 := @uuid4 (Fixture.services true);
  datetime_now := @datetime_now (Fixture.services true);
  isoformat := @isoformat (Fixture.services true);
  epoch_seconds := @epoch_seconds (Fixture.services true);
  unquote_plus := @unquote_plus (Fixture.services true);
  guess_type := @guess_type (Fixture.services true);
  b64encode := @b64encode (Fixture.services true);
  json_dumps := render;
  json_loads := @json_loads (Fixture.services true);
  repr := render;
  BEDROCK_MODEL_ID := @BEDROCK_MODEL_ID (Fixture.services true)
|}.

Definition start : @state services := Fixture.start services 0%nat.

(** The bodies of the inference calls of a trace. *)
Fixpoint bodies (evs : list event) : list str :=
  match evs with
  | [] => []
  | EvInvokeModel _ body :: rest => body :: bodies rest
  | _ :: rest => bodies rest
  end.

(** The body of the request of the Summarizer for [text]. *)
Definition summary_body (text : str) : str :=
  match bodies (trace (snd (generate_summary_with_bedrock (SV := services)
                              text start))) with
  | body :: _ => body
  | [] => []
  end.

(** The answer of the handler to the batch of [Runs]. *)
Definition batch_answer : outcome response * @state services :=
  lambda_handler (SV := services) (Fixture.event_of Runs.batch) start.

End Transcript.

(* ================================================================== *)
(** * Properties *)

(** ** Strings *)

Lemma str_eqb_spec (a b : str) : reflect (a = b) (str_eqb a b).
Proof.
  revert b; induction a as [|x a IH]; intros [|y b]; simpl;
    try (constructor; congruence).
  destruct (N.eqb_spec x y) as [->|Hxy]; simpl.
  - destruct (IH b) as [->|Hab]; constructor; congruence.
  - constructor; congruence.
Qed.

Lemma split_not_nil sep s : split sep s <> [].
Proof.
  destruct s as [|c t]; simpl; [discriminate|].
  destruct (c =? sep); [discriminate|].
  destruct (split sep t); discriminate.
Qed.

(** [split] on a string without the separator gives the string back. *)
Lemma split_no_dot s : after_last_dot s = None -> split 46 s = [s].
Proof.
  induction s as [|c t IH]; simpl; intros H; [reflexivity|].
  destruct (after_last_dot t) as [suffix|]; [discriminate|].
  destruct (c =? 46); [discriminate|].
  now rewrite IH.
Qed.

(** [split] on a string with a separator ends with what follows the last
    one. *)
Lemma split_with_dot s suffix :
  after_last_dot s = Some suffix ->
  exists h r, split 46 s = h :: r /\ r <> [] /\ last r [] = suffix.
Proof.
  revert suffix; induction s as [|c t IH]; simpl; intros suffix H;
    [discriminate|].
  destruct (after_last_dot t) as [suffix'|] eqn:Et.
  - injection H as <-.
    destruct (IH _ eq_refl) as (h & r & Es & Hr & Hl).
    rewrite Es. destruct (c =? 46).
    + exists [], (h :: r). repeat split; [discriminate|].
      simpl. destruct r; [congruence|exact Hl].
    + exists (c :: h), r. auto.
  - destruct (c =? 46) eqn:Ec; [|discriminate].
    injection H as <-. rewrite (split_no_dot _ Et).
    exists [], [t]. repeat split. discriminate.
Qed.

Lemma last_item_split s :
  last_item (split 46 s)
  = match after_last_dot s with Some suffix => suffix | None => s end.
Proof.
  unfold last_item. destruct (after_last_dot s) as [suffix|] eqn:E.
  - destruct (split_with_dot _ E) as (h & r & -> & Hr & Hl).
    simpl. destruct r; [congruence|exact Hl].
  - now rewrite (split_no_dot _ E).
Qed.

(** Lower-casing neither makes nor removes a ['.']. *)
Lemma lower_char_dot c :
  (c =? 46) = true -> lower_char c = [46].
Proof. intros H; apply N.eqb_eq in H; now subst. Qed.

Lemma lower_char_no_dot c :
  (c =? 46) = false -> after_last_dot (lower_char c) = None.
Proof.
  intros H; apply N.eqb_neq in H. unfold lower_char.
  repeat match goal with
  | |- context [if ?b then _ else _] => destruct b eqn:?
  end; simpl;
  repeat match goal with
  | |- context [?x =? 46] => destruct (N.eqb_spec x 46)
  | H : _ && _ = true |- _ => apply andb_true_iff in H; destruct H
  | H : (_ <=? _) = true |- _ => apply N.leb_le in H
  end; try reflexivity; try lia.
Qed.

Lemma after_last_dot_app a b :
  after_last_dot (a ++ b)
  = match after_last_dot b with
    | Some suffix => Some suffix
    | None =>
        match after_last_dot a with
        | Some suffix => Some (suffix ++ b)
        | None => None
        end
    end.
Proof.
  induction a as [|c a IH]; simpl.
  - now destruct (after_last_dot b).
  - rewrite IH. destruct (after_last_dot b); [reflexivity|].
    destruct (after_last_dot a); [reflexivity|].
    now destruct (c =? 46).
Qed.

Lemma after_last_dot_lower s :
  after_last_dot (lower s)
  = match after_last_dot s with
    | Some suffix => Some (lower suffix)
    | None => None
    end.
Proof.
  induction s as [|c t IH]; [reflexivity|].
  change (lower (c :: t)) with (lower_char c ++ lower t).
  rewrite after_last_dot_app, IH. simpl.
  destruct (after_last_dot t) as [suffix|]; [reflexivity|].
  destruct (c =? 46) eqn:Ec.
  - now rewrite (lower_char_dot _ Ec).
  - now rewrite (lower_char_no_dot _ Ec).
Qed.

(** The extension the code computes: the lower-cased text after the last
    ['.'], and the whole lower-cased key when there is no ['.']. *)
Lemma file_extension_spec key :
  file_extension key
  = match after_last_dot key with
    | Some suffix => lower suffix
    | None => lower key
    end.
Proof.
  unfold file_extension. rewrite last_item_split, after_last_dot_lower.
  now destruct (after_last_dot key).
Qed.

(** ** The codecs *)

Lemma cons_ok_raise c r e : cons_ok c r = Raise e -> r = Raise e.
Proof. destruct r; simpl; congruence. Qed.

Lemma latin1_table_defined (b : Byte.byte) :
  latin1_table (Byte.to_N b) = Some (Byte.to_N b).
Proof.
  unfold latin1_table. pose proof (Byte.to_N_bounded b) as Hb.
  destruct (N.ltb_spec (Byte.to_N b) 256); [reflexivity|lia].
Qed.

(** Latin-1 decodes every byte sequence. *)
Lemma decode_latin1_total (bs : bytes) :
  decode_latin1 bs = Ok (map Byte.to_N bs).
Proof.
  unfold decode_latin1. induction bs as [|b r IH]; simpl; [reflexivity|].
  now rewrite latin1_table_defined, IH.
Qed.

(** The strict UTF-8 decoder raises nothing but [UnicodeDecodeError]. *)
Lemma decode_utf8_strict_error (n : nat) :
  forall bs e, (List.length bs <= n)%nat ->
               decode_utf8 false bs = Raise e -> is_unicode_error e = true.
Proof.
  induction n as [|n IH]; intros bs e Hlen H.
  - destruct bs; [discriminate | simpl in Hlen; lia].
  - destruct bs as [|b0 r0]; [discriminate|].
    simpl in Hlen. simpl in H.
    assert (Hrec : forall r, (List.length r <= List.length r0)%nat ->
                             forall c, cons_ok c (decode_utf8 false r) = Raise e ->
                                       is_unicode_error e = true).
    { intros r Hr c Hc. apply cons_ok_raise in Hc.
      apply (IH r e); [lia|exact Hc]. }
    destruct (classify (Byte.to_N b0)).
    + apply (Hrec r0 (le_n _) _ H).
    + destruct r0 as [|b1 r1]; [now inversion H|].
      destruct (in_range 128 191 b1); [|now inversion H].
      apply (Hrec r1) in H; [exact H | simpl; lia].
    + destruct r0 as [|b1 [|b2 r2]]; try (now inversion H).
      destruct (in_range lo1 hi1 b1 && in_range 128 191 b2);
        [|now inversion H].
      apply (Hrec r2) in H; [exact H | simpl; lia].
    + destruct r0 as [|b1 [|b2 [|b3 r3]]]; try (now inversion H).
      destruct (in_range lo1 hi1 b1 && in_range 128 191 b2
                && in_range 128 191 b3); [|now inversion H].
      apply (Hrec r3) in H; [exact H | simpl; lia].
    + now inversion H.
Qed.

(** The chain, attempt by attempt: UTF-8 when the bytes are well formed,
    Latin-1 otherwise. *)
Lemma decode_chain_run (content : bytes) :
  decode_chain content
  = match decode_utf8 false content with
    | Ok text => Ok (ByUtf8, text)
    | Raise _ => Ok (ByLatin1, map Byte.to_N content)
    end.
Proof.
  unfold decode_chain.
  destruct (decode_utf8 false content) as [text|e] eqn:E; [reflexivity|].
  rewrite (decode_utf8_strict_error content (le_n _) E).
  now rewrite decode_latin1_total.
Qed.

Lemma decode_text_ok (content : bytes) :
  exists text, decode_text content = Ok text.
Proof.
  unfold decode_text. rewrite decode_chain_run.
  destruct (decode_utf8 false content); eexists; reflexivity.
Qed.

(** C10.  In the decoding chain of the Direct Decoder the last attempt
    (UTF-8 with undecodable bytes dropped) is never reached: Latin-1
    decodes every byte sequence, so for every content the chain returns a
    string, and it does so by the UTF-8 attempt or by the Latin-1 one; it
    raises for no content. *)
Theorem decoding_chain_never_reaches_last_attempt (content : bytes) :
  decode_latin1 content = Ok (map Byte.to_N content)
  /\ (exists text, decode_text content = Ok text)
  /\ (exists text,
        decode_chain content = Ok (ByUtf8, text)
        \/ decode_chain content = Ok (ByLatin1, text))
  /\ (forall text, decode_chain content <> Ok (ByUtf8Ignore, text)).
Proof.
  split; [apply decode_latin1_total|].
  split; [apply decode_text_ok|].
  rewrite decode_chain_run.
  destruct (decode_utf8 false content) as [text|e]; split.
  - exists text; now left.
  - intros t; discriminate.
  - exists (map Byte.to_N content); now right.
  - intros t; discriminate.
Qed.

(** ** The monad *)

Arguments lit : simpl never.
Arguments src_line : simpl never.

Section MonadFacts.
Context {SV : Services}.

Lemma total_ret {A} (a : A) : total (ret a).
Proof. intros st; now exists a, st. Qed.

Lemma total_log lvl msg : total (log lvl msg).
Proof. intros st; eexists; eexists; reflexivity. Qed.

Lemma total_sample {A} (f : W -> A * W) : total (sample f).
Proof.
  intros st; unfold sample. destruct (f (world st)) as [a w'].
  eexists; eexists; reflexivity.
Qed.

Lemma total_bind {A B} (m : M A) (k : A -> M B) :
  total m -> (forall a, total (k a)) -> total (bind m k).
Proof.
  intros Hm Hk st. unfold bind.
  destruct (Hm st) as (a & st' & ->). apply Hk.
Qed.

(** A [try] whose handler always returns is a computation that always
    returns. *)
Lemma total_try_catch {A} (m : M A) (h : exn -> M A) :
  (forall e, total (h e)) -> total (try_catch m h).
Proof.
  intros Hh st. unfold try_catch.
  destruct (m st) as [[a|e] st']; [now exists a, st' | apply Hh].
Qed.

(** Appending to the trace, step by step or at once. *)
Lemma after_after (st : state) w1 evs1 w2 evs2 :
  after (after st w1 evs1) w2 evs2 = after st w2 (evs1 ++ evs2).
Proof. unfold after; simpl. now rewrite app_assoc. Qed.

Lemma log_run lvl msg (st : state) :
  log lvl msg st = (Ok tt, after st (world st) [EvLog lvl msg]).
Proof. reflexivity. Qed.

Lemma call_run {A} ev (f : W -> outcome A * W) (st : state) :
  call ev f st = (fst (f (world st)), after st (snd (f (world st))) [ev]).
Proof. unfold call. now destruct (f (world st)). Qed.

End MonadFacts.

(** ** The stages *)

Section StageFacts.
Context {SV : Services}.

(** *** Direct Decoder *)

Lemma extract_text_directly_total bucket key :
  total (extract_text_directly bucket key).
Proof.
  apply total_try_catch. intros e.
  apply total_bind; [apply total_log | intros _; apply total_ret].
Qed.

(** *** Vision-Inference Extractor *)

Lemma extract_text_with_bedrock_total bucket key :
  total (extract_text_with_bedrock_data_automation bucket key).
Proof.
  apply total_try_catch. intros e.
  apply total_bind; [apply total_log|].
  intros _; apply extract_text_directly_total.
Qed.

Lemma extract_text_from_document_total bucket key :
  total (extract_text_from_document bucket key).
Proof.
  apply total_try_catch. intros e.
  apply total_bind; [apply total_log | intros _; apply total_ret].
Qed.

(** *** Metadata Fetcher *)

Lemma get_document_metadata_run bucket key (st : state) :
  get_document_metadata bucket key st
  = match s3_head_object bucket key (world st) with
    | (Ok response, w1) =>
        let (now, w2) := datetime_now w1 in
        (Ok {| content_type :=
                 if is_empty (or_default (ContentType response) [])
                 then guess_type key
                 else Some (or_default (ContentType response) []);
               content_length := or_default (ContentLength response) 0%Z;
               last_modified :=
                 isoformat (or_default (LastModified response) now);
               etag := strip_quotes (or_default (ETag response) []);
               metadata := or_default (Metadata response) [] |},
         after st w2 [EvHeadObject bucket key])
    | (Raise e, w1) =>
        let (now, w2) := datetime_now w1 in
        (Ok (degraded_metadata (isoformat now)),
         after st w2
           [ EvHeadObject bucket key;
             EvLog Error (lit "Error getting document metadata: "
                          ++ Py.exn_str e) ])
    end.
Proof.
  unfold get_document_metadata, try_catch, bind, call, sample, log, ret, after.
  destruct (s3_head_object bucket key (world st)) as [[response|e] w1]; simpl.
  - now destruct (datetime_now w1).
  - destruct (datetime_now w1). now rewrite <- app_assoc.
Qed.

Lemma get_document_metadata_total bucket key :
  total (get_document_metadata bucket key).
Proof.
  intros st. rewrite get_document_metadata_run.
  destruct (s3_head_object bucket key (world st)) as [[response|e] w1];
    destruct (datetime_now w1); eexists; eexists; reflexivity.
Qed.

(** *** Summarizer *)

Lemma generate_summary_total text :
  total (generate_summary_with_bedrock text).
Proof.
  apply total_try_catch. intros e.
  apply total_bind; [apply total_log | intros _; apply total_ret].
Qed.

(** Reading the answer of the endpoint touches neither the world nor the
    trace. *)
Lemma has_content_pure response_body (st : state) :
  exists r, has_content response_body st = (r, st).
Proof.
  unfold has_content, bind, lift, ret.
  destruct (Py.contains_str (lit "content") response_body) as [[|]|e];
    try (eexists; reflexivity).
  destruct (Py.getitem_str response_body (lit "content"));
    eexists; reflexivity.
Qed.

Lemma first_text_pure response_body (st : state) :
  exists r, first_text response_body st = (r, st).
Proof.
  unfold first_text, bind, lift.
  destruct (Py.getitem_str response_body (lit "content")) as [c|e];
    [|eexists; reflexivity].
  destruct (Py.getitem_0 c); eexists; reflexivity.
Qed.

Lemma summary_answer_pure raw (st : state) :
  exists r, summary_answer raw st = (r, st).
Proof.
  unfold summary_answer, bind, lift.
  destruct (json_loads raw) as [response_body|e]; [|eexists; reflexivity].
  destruct (has_content_pure response_body st) as ([[|]|e] & ->);
    try (eexists; reflexivity).
  destruct (first_text_pure response_body st) as ([summary|e] & ->);
    eexists; reflexivity.
Qed.

Lemma too_short_false text :
  (50 <= len (strip text))%Z -> too_short text = false.
Proof.
  intros H. unfold too_short. apply orb_false_iff; split.
  - destruct text; [|reflexivity]. now vm_compute in H.
  - apply Z.ltb_ge. exact H.
Qed.

(** The request of the Summarizer for [text]. *)
Lemma generate_summary_calls text (st : state) :
  too_short text = false ->
  exists out w' rest,
    generate_summary_with_bedrock text st
    = (Ok out,
       after st w'
         (EvInvokeModel BEDROCK_MODEL_ID
            (json_dumps (summary_request (summary_prompt text))) :: rest))
    /\ Forall (fun ev => is_invoke_model ev = false) rest.
Proof.
  intros Hlong.
  unfold generate_summary_with_bedrock, try_catch. rewrite Hlong.
  unfold bind at 1. rewrite call_run.
  destruct (bedrock_invoke_model BEDROCK_MODEL_ID
              (json_dumps (summary_request (summary_prompt text)))
              (world st)) as [[raw|e] w1]; simpl fst; simpl snd; cbv beta iota.
  - match goal with
    | |- context [summary_answer raw ?s] =>
        destruct (summary_answer_pure raw s) as ([out|e] & ->)
    end.
    + exists out, w1, []. split; [reflexivity | constructor].
    + unfold bind, ret. rewrite log_run, after_after.
      eexists; exists w1; eexists. split; [reflexivity|].
      repeat constructor.
  - unfold bind, ret. rewrite log_run, after_after.
    eexists; exists w1; eexists. split; [reflexivity|].
    repeat constructor.
Qed.

(** *** Record Writer *)

Lemma store_document_data_run document_id bucket key md raw_text summary
    (st : state) :
  store_document_data document_id bucket key md raw_text summary st
  = let (t1, w1) := datetime_now (world st) in
    let (t2, w2) := datetime_now w1 in
    let item := document_item document_id bucket key md raw_text summary t1 t2 in
    match table_put_item item w2 with
    | (Ok _, w3) =>
        (Ok tt,
         after st w3
           [ EvPutItem item;
             EvLog Info (lit "Document data stored successfully: "
                         ++ document_id) ])
    | (Raise e, w3) =>
        (Raise e,
         after st w3
           [ EvPutItem item;
             EvLog Error (lit "Error storing document data: "
                          ++ Py.exn_str e) ])
    end.
Proof.
  unfold store_document_data, try_catch, bind, sample, call, log, raise, after.
  destruct (datetime_now (world st)) as [t1 w1]; simpl.
  destruct (datetime_now w1) as [t2 w2]; simpl.
  destruct (table_put_item _ w2) as [[u|e] w3]; simpl;
    now rewrite <- app_assoc.
Qed.

Lemma upstream_total bucket key : total (upstream bucket key).
Proof.
  unfold upstream.
  apply total_bind; [apply total_sample | intros document_id].
  apply total_bind; [apply get_document_metadata_total | intros md].
  apply total_bind; [apply extract_text_from_document_total | intros text].
  apply total_bind; [apply generate_summary_total | intros summary].
  apply total_ret.
Qed.

End StageFacts.

(** ** The dispatcher *)

Section DispatcherFacts.
Context {SV : Services}.

(** A record whose bucket and key can be read yields a result, and the
    result is decided by the write. *)
Lemma process_s3_record_outcome record bucket key (st : state) :
  record_bucket record = Ok bucket ->
  record_key record = Ok key ->
  exists result st1,
    process_s3_record record st = (Ok result, st1)
    /\ item_outcome record st result st1.
Proof.
  intros Hb Hk.
  unfold process_s3_record, try_catch, bind, lift, ret.
  rewrite Hb, Hk; cbv beta iota. rewrite log_run; cbv beta iota.
  destruct (upstream_total bucket key
              (after st (world st)
                 [EvLog Info (lit "Processing document: " ++ key
                              ++ lit " from bucket: " ++ format_value bucket)]))
    as ([[[document_id md] text] summary] & st4 & Eup).
  rewrite Eup; cbv beta iota. rewrite store_document_data_run.
  destruct (datetime_now (world st4)) as [t1 w1] eqn:E1.
  destruct (datetime_now w1) as [t2 w2] eqn:E2.
  cbv zeta.
  destruct (table_put_item
              (document_item document_id bucket key md text summary t1 t2) w2)
    as [[u|e] w3] eqn:Eput.
  - eexists; eexists; split; [reflexivity|].
    eapply item_written; eauto.
  - rewrite log_run, after_after; cbv beta iota.
    eexists; eexists; split; [reflexivity|].
    eapply item_write_failed; eauto.
Qed.

Lemma well_formed_upload record :
  well_formed_record record = true ->
  is_upload_event record = true ->
  exists bucket key,
    record_bucket record = Ok bucket /\ record_key record = Ok key.
Proof.
  unfold well_formed_record, is_upload_event.
  destruct (Py.getitem_str record (lit "eventSource")) as [src|e];
    [|discriminate].
  intros Hwf Hup; rewrite Hup in Hwf.
  destruct (record_bucket record) as [bucket|]; [|discriminate].
  destruct (record_key record) as [key|]; [|discriminate].
  now exists bucket, key.
Qed.

Lemma well_formed_source record :
  well_formed_record record = true ->
  exists src, Py.getitem_str record (lit "eventSource") = Ok src.
Proof.
  unfold well_formed_record.
  destruct (Py.getitem_str record (lit "eventSource")) as [src|e];
    [now exists src | discriminate].
Qed.

(** The loop over well-formed records runs to its end, one record after
    the other. *)
Lemma process_records_run records :
  forallb well_formed_record records = true ->
  forall acc (st : state),
  exists results st',
    process_records records acc st = (Ok (acc ++ results), st')
    /\ batch_run records st results st'.
Proof.
  induction records as [|record rest IH]; intros Hwf acc st.
  - exists [], st. split; [simpl; now rewrite app_nil_r | constructor].
  - simpl in Hwf. apply andb_true_iff in Hwf as [Hrec Hrest].
    destruct (well_formed_source _ Hrec) as (src & Esrc).
    simpl. unfold bind at 1, lift. rewrite Esrc.
    destruct (is_s3_source src) eqn:Es3.
    + assert (Hup : is_upload_event record = true)
        by (unfold is_upload_event; now rewrite Esrc).
      destruct (well_formed_upload _ Hrec Hup) as (bucket & key & Hb & Hk).
      destruct (process_s3_record_outcome record st Hb Hk)
        as (result & st1 & Eproc & Hout).
      unfold bind. rewrite Eproc.
      destruct (IH Hrest (acc ++ [result]) st1) as (results & st' & Erun & Hrun).
      exists (result :: results), st'. split.
      * rewrite Erun. now rewrite <- app_assoc.
      * eapply batch_item; eauto.
    + destruct (IH Hrest acc st) as (results & st' & Erun & Hrun).
      exists results, st'. split; [exact Erun|].
      eapply batch_skip; eauto.
Qed.

(** The handler on a batch of well-formed records. *)
Lemma lambda_handler_run event records_v records (st : state) :
  Py.getitem_str event (lit "Records") = Ok records_v ->
  Py.iterate records_v = Ok records ->
  forallb well_formed_record records = true ->
  exists results st1,
    batch_run records
      (after st (world st)
         [EvLog Info (lit "Processing event: " ++ json_dumps event)])
      results st1
    /\ lambda_handler event st
       = (Ok (success_response results),
          after st1 (world st1)
            [EvLog Info (lit "Processing completed. Results: "
                         ++ repr (PList (map result_to_py results)))]).
Proof.
  intros Hrec Hiter Hwf.
  destruct (process_records_run records Hwf []
              (after st (world st)
                 [EvLog Info (lit "Processing event: " ++ json_dumps event)]))
    as (results & st1 & Erun & Hrun).
  exists results, st1. split; [exact Hrun|].
  unfold lambda_handler, try_catch, bind, lift, ret.
  rewrite log_run, Hrec, Hiter; cbv beta iota.
  rewrite Erun; cbv beta iota. now rewrite log_run.
Qed.

Lemma item_outcome_result record (st : state) result st1 :
  item_outcome record st result st1 -> result_of_record record result.
Proof.
  intros H; inversion H; subst; exists bucket, key; repeat split; auto.
  - left. now exists document_id, (len text), (len summary).
  - right. now exists (Py.exn_str e).
Qed.

(** One result per upload event, in the order of the batch. *)
Lemma batch_run_results records (st : state) results st' :
  batch_run records st results st' ->
  Forall2 result_of_record (upload_events records) results.
Proof.
  unfold upload_events.
  induction 1 as [st | record src rest st results st' Esrc Hs3 _ IH
                  | record src rest st result st1 results st' Esrc Hs3 Hout _ IH];
    simpl.
  - constructor.
  - unfold is_upload_event at 1. rewrite Esrc, Hs3. exact IH.
  - unfold is_upload_event at 1. rewrite Esrc, Hs3.
    constructor; [|exact IH].
    eapply item_outcome_result; eauto.
Qed.

(** The result of a notification is the one its write decides. *)
Lemma item_outcome_sound record (st : state) result st1 :
  item_outcome record st result st1 ->
  process_s3_record record st = (Ok result, st1).
Proof.
  intros H.
  inversion H as [bucket key document_id md text summary st4 t1 w1 t2 w2 u w3
                    Hb Hk Eup E1 E2 Eput
                 |bucket key document_id md text summary st4 t1 w1 t2 w2 e w3
                    Hb Hk Eup E1 E2 Eput]; subst;
    unfold processing_message in Eup;
    unfold process_s3_record, try_catch, bind, lift, ret;
    rewrite Hb, Hk; cbv beta iota; rewrite log_run; cbv beta iota;
    rewrite Eup; cbv beta iota;
    rewrite store_document_data_run, E1, E2; cbv zeta; rewrite Eput.
  - reflexivity.
  - now rewrite log_run, after_after.
Qed.

(** The loop returns the results of the notifications, side by side. *)
Lemma batch_run_sound records (st : state) results st' :
  batch_run records st results st' ->
  forall acc, process_records records acc st = (Ok (acc ++ results), st').
Proof.
  induction 1 as [st | record src rest st results st' Esrc Hs3 _ IH
                  | record src rest st result st1 results st' Esrc Hs3 Hout _ IH];
    intros acc; simpl.
  - now rewrite app_nil_r.
  - unfold bind, lift. rewrite Esrc, Hs3. apply IH.
  - unfold bind, lift. rewrite Esrc, Hs3.
    rewrite (item_outcome_sound Hout), IH. now rewrite <- app_assoc.
Qed.

Lemma lambda_handler_sound event records_v records (st : state) results st1 :
  Py.getitem_str event (lit "Records") = Ok records_v ->
  Py.iterate records_v = Ok records ->
  batch_run records
    (after st (world st)
       [EvLog Info (lit "Processing event: " ++ json_dumps event)])
    results st1 ->
  lambda_handler event st
  = (Ok (success_response results),
     after st1 (world st1)
       [EvLog Info (lit "Processing completed. Results: "
                    ++ repr (PList (map result_to_py results)))]).
Proof.
  intros Hrec Hiter Hrun.
  unfold lambda_handler, try_catch, bind, lift, ret.
  rewrite log_run, Hrec, Hiter; cbv beta iota.
  rewrite (batch_run_sound Hrun []); cbv beta iota. now rewrite log_run.
Qed.

End DispatcherFacts.

(** The dict of a result says what the result is. *)
Lemma entry_describes_rendered (result : processing_result) :
  entry_describes result (result_to_py result).
Proof. destruct result; repeat split. Qed.

Lemma entries_describe_results (results : list processing_result) :
  Forall2 entry_describes results (map result_to_py results).
Proof.
  induction results as [|result rest IH]; simpl; constructor;
    [apply entry_describes_rendered | exact IH].
Qed.

(* ================================================================== *)
(** * The properties of the design document *)

Section Claims.
Context {SV : Services}.

(** C1, as amended.  For every batch whose records are well formed (each
    names its event source, and each upload event carries a bucket name
    and a string as object key), a failure while one notification is
    processed does not abort the batch.  The records are run one after
    the other, each upload event to its own outcome (its write returned,
    or its write raised) and the next record from the state that outcome
    left; the Event Dispatcher answers 200 with a body that has one entry
    per upload-event notification, in order.  The entry of a notification
    whose write returned reads [status: processed] with its document id,
    bucket, key and the two lengths; the entry of a notification whose
    write raised reads [status: error] with its bucket, its key and the
    message of the exception. *)
Theorem dispatcher_isolates_item_failures
    (event records_v : pyval) (records : list pyval) (st : state) :
  Py.getitem_str event (lit "Records") = Ok records_v ->
  Py.iterate records_v = Ok records ->
  forallb well_formed_record records = true ->
  exists results entries st1,
    batch_run records
      (after st (world st)
         [EvLog Info (lit "Processing event: " ++ json_dumps event)])
      results st1
    /\ lambda_handler event st
       = (Ok {| statusCode := 200;
                body := json_dumps
                          (PDict [ kv "message"
                                      (pstr "Documents processed successfully");
                                   kv "results" (PList entries) ]) |},
          after st1 (world st1)
            [EvLog Info (lit "Processing completed. Results: "
                         ++ repr (PList entries))])
    /\ Forall2 entry_describes results entries
    /\ Forall2 result_of_record (upload_events records) results.
Proof.
  intros Hrec Hiter Hwf.
  destruct (lambda_handler_run event st Hrec Hiter Hwf)
    as (results & st1 & Hrun & Ehandler).
  exists results, (map result_to_py results), st1.
  split; [exact Hrun|]. split; [exact Ehandler|]. split.
  - apply entries_describe_results.
  - eapply batch_run_results; eauto.
Qed.

(** C3.  For every bucket and key, if the call of the inference endpoint
    made by the Vision-Inference Extractor raises, then the extractor
    returns what the Direct Decoder returns when it is applied to the same
    bucket and key, in the world the failed call left behind. *)
Theorem vision_failure_falls_back_to_direct_decoder
    (bucket : pyval) (key : str) (st : state)
    (content : bytes) (w1 : W) (e : exn) (w2 : W) :
  let request :=
    json_dumps
      (extraction_request
         (map_get media_type_map (file_extension key)
                  (lit "application/octet-stream"))
         (b64encode content)) in
  s3_get_object bucket key (world st) = (Ok content, w1) ->
  bedrock_invoke_model BEDROCK_MODEL_ID request w1 = (Raise e, w2) ->
  extract_text_with_bedrock_data_automation bucket key st
  = extract_text_directly bucket key
      (after st w2
         [ EvGetObject bucket key;
           EvInvokeModel BEDROCK_MODEL_ID request;
           EvLog Error (lit "Error with Bedrock Data Automation: "
                        ++ Py.exn_str e) ]).
Proof.
  intros request Hget Hcall.
  unfold extract_text_with_bedrock_data_automation, try_catch, vision_request.
  unfold bind, call, log. simpl world. rewrite Hget; cbv beta iota zeta.
  simpl world. fold request. rewrite Hcall; cbv beta iota.
  simpl world; simpl trace. unfold after. now rewrite <- !app_assoc.
Qed.

(** C4.  The Record Writer re-raises the error of a failed write, and it
    is the only stage that lets a failure through: the three stages
    before it return a value from every state.  Every notification whose
    bucket and key can be read has one of two outcomes, and its result is
    the one its write decides.  When the write raises [e], the entry of
    the notification reads [status: error], [error: str(e)] and the
    bucket and key of the notification, and has no document id; when the
    write returns, the entry reads [status: processed] with the document
    id, the bucket, the key and the lengths of the text and of the
    summary, and has no [error].  In a batch the handler answers 200
    with the entries of all its notifications side by side, the failed
    ones next to the processed ones. *)
Theorem write_failure_is_reported_per_item :
  (forall document_id bucket key md raw_text summary (s : state)
          t1 w1 t2 w2 e w3,
      datetime_now (world s) = (t1, w1) ->
      datetime_now w1 = (t2, w2) ->
      table_put_item
        (document_item document_id bucket key md raw_text summary t1 t2) w2
        = (Raise e, w3) ->
      fst (store_document_data document_id bucket key md raw_text summary s)
      = Raise e)
  /\ (forall bucket key text,
         total (get_document_metadata bucket key)
         /\ total (extract_text_from_document bucket key)
         /\ total (generate_summary_with_bedrock text))
  /\ (forall record bucket key (st : state),
         record_bucket record = Ok bucket ->
         record_key record = Ok key ->
         exists result st1, item_outcome record st result st1)
  /\ (forall record (st : state) result st1,
         item_outcome record st result st1 ->
         process_s3_record record st = (Ok result, st1))
  /\ (forall record bucket key (st : state)
             document_id md text summary st4 t1 w1 t2 w2 e w3,
         record_bucket record = Ok bucket ->
         record_key record = Ok key ->
         upstream bucket key
           (after st (world st) [EvLog Info (processing_message bucket key)])
           = (Ok (document_id, md, text, summary), st4) ->
         datetime_now (world st4) = (t1, w1) ->
         datetime_now w1 = (t2, w2) ->
         table_put_item
           (document_item document_id bucket key md text summary t1 t2) w2
           = (Raise e, w3) ->
         exists result st1,
           process_s3_record record st = (Ok result, st1)
           /\ Py.getitem_str (result_to_py result) (lit "status")
              = Ok (pstr "error")
           /\ Py.getitem_str (result_to_py result) (lit "error")
              = Ok (PStr (Py.exn_str e))
           /\ Py.getitem_str (result_to_py result) (lit "bucket") = Ok bucket
           /\ Py.getitem_str (result_to_py result) (lit "key") = Ok (PStr key)
           /\ Py.getitem_str (result_to_py result) (lit "document_id")
              = Raise (KeyError (lit "'" ++ lit "document_id" ++ lit "'")))
  /\ (forall record bucket key (st : state)
             document_id md text summary st4 t1 w1 t2 w2 u w3,
         record_bucket record = Ok bucket ->
         record_key record = Ok key ->
         upstream bucket key
           (after st (world st) [EvLog Info (processing_message bucket key)])
           = (Ok (document_id, md, text, summary), st4) ->
         datetime_now (world st4) = (t1, w1) ->
         datetime_now w1 = (t2, w2) ->
         table_put_item
           (document_item document_id bucket key md text summary t1 t2) w2
           = (Ok u, w3) ->
         exists result st1,
           process_s3_record record st = (Ok result, st1)
           /\ Py.getitem_str (result_to_py result) (lit "status")
              = Ok (pstr "processed")
           /\ Py.getitem_str (result_to_py result) (lit "document_id")
              = Ok (PStr document_id)
           /\ Py.getitem_str (result_to_py result) (lit "bucket") = Ok bucket
           /\ Py.getitem_str (result_to_py result) (lit "key") = Ok (PStr key)
           /\ Py.getitem_str (result_to_py result) (lit "text_length")
              = Ok (PInt (len text))
           /\ Py.getitem_str (result_to_py result) (lit "summary_length")
              = Ok (PInt (len summary))
           /\ Py.getitem_str (result_to_py result) (lit "error")
              = Raise (KeyError (lit "'" ++ lit "error" ++ lit "'")))
  /\ (forall event records_v records (st : state) results st1,
         Py.getitem_str event (lit "Records") = Ok records_v ->
         Py.iterate records_v = Ok records ->
         batch_run records
           (after st (world st)
              [EvLog Info (lit "Processing event: " ++ json_dumps event)])
           results st1 ->
         exists entries,
           lambda_handler event st
           = (Ok {| statusCode := 200;
                    body := json_dumps
                              (PDict [ kv "message"
                                          (pstr "Documents processed successfully");
                                       kv "results" (PList entries) ]) |},
              after st1 (world st1)
                [EvLog Info (lit "Processing completed. Results: "
                             ++ repr (PList entries))])
           /\ Forall2 entry_describes results entries).
Proof.
  split; [|split; [|split; [|split; [|split; [|split]]]]].
  - intros document_id bucket key md raw_text summary s t1 w1 t2 w2 e w3
           E1 E2 Eput.
    rewrite store_document_data_run, E1, E2; cbv zeta. now rewrite Eput.
  - intros bucket key text. split; [|split].
    + apply get_document_metadata_total.
    + apply extract_text_from_document_total.
    + apply generate_summary_total.
  - intros record bucket key st Hb Hk.
    destruct (process_s3_record_outcome record st Hb Hk)
      as (result & st1 & _ & Hout).
    now exists result, st1.
  - intros record st result st1. apply item_outcome_sound.
  - intros record bucket key st document_id md text summary st4
           t1 w1 t2 w2 e w3 Hb Hk Eup E1 E2 Eput.
    eexists; eexists; split.
    + apply item_outcome_sound.
      eapply item_write_failed; eauto.
    + repeat split.
  - intros record bucket key st document_id md text summary st4
           t1 w1 t2 w2 u w3 Hb Hk Eup E1 E2 Eput.
    eexists; eexists; split.
    + apply item_outcome_sound.
      eapply item_written; eauto.
    + repeat split.
  - intros event records_v records st results st1 Hrec Hiter Hrun.
    exists (map result_to_py results). split.
    + eapply lambda_handler_sound; eauto.
    + apply entries_describe_results.
Qed.

(** C5, as amended.  For every successful metadata fetch, the content
    type of the Document Metadata is the store-reported content type when
    that is present and not empty; otherwise it is what is guessed from
    the key, and when nothing can be guessed it is absent ([None]). *)
Theorem content_type_resolution
    (bucket : pyval) (key : str) (st : state)
    (resp : head_response datetime) (w1 : W) :
  s3_head_object bucket key (world st) = (Ok resp, w1) ->
  exists md st',
    get_document_metadata bucket key st = (Ok md, st')
    /\ content_type md
       = match ContentType resp with
         | Some (c :: ct) => Some (c :: ct)
         | Some [] | None => guess_type key
         end.
Proof.
  intros Hhead. rewrite get_document_metadata_run, Hhead.
  destruct (datetime_now w1) as [now w2].
  eexists; eexists; split; [reflexivity|]. simpl.
  now destruct (ContentType resp) as [[|c ct]|].
Qed.

(** C6.  For every bucket and key the Metadata Fetcher returns a value,
    whatever the store does; and if the fetch fails, the value is the
    degraded Document Metadata: content type ["unknown"], content length
    0, last-modified set to the current time, empty checksum and empty tag
    mapping. *)
Theorem metadata_fetcher_never_raises
    (bucket : pyval) (key : str) (st : state) :
  (exists md st', get_document_metadata bucket key st = (Ok md, st'))
  /\ (forall e w1,
         s3_head_object bucket key (world st) = (Raise e, w1) ->
         get_document_metadata bucket key st
         = (Ok {| content_type := Some (lit "unknown");
                  content_length := 0%Z;
                  last_modified := isoformat (fst (datetime_now w1));
                  etag := [];
                  metadata := [] |},
            after st (snd (datetime_now w1))
              [ EvHeadObject bucket key;
                EvLog Error (lit "Error getting document metadata: "
                             ++ Py.exn_str e) ])).
Proof.
  split; [apply get_document_metadata_total|].
  intros e w1 Hhead. rewrite get_document_metadata_run, Hhead.
  now destruct (datetime_now w1).
Qed.

(** C7.  For every text that is empty or whose length after trimming
    white space is below 50, the Summarizer returns exactly
    ["Text too short to summarize effectively."] and leaves the world and
    the trace as they were: it calls no endpoint. *)
Theorem short_text_is_not_summarized (text : str) (st : state) :
  text = [] \/ (len (strip text) < 50)%Z ->
  generate_summary_with_bedrock text st
  = (Ok (lit "Text too short to summarize effectively."), st).
Proof.
  intros H.
  assert (Hshort : too_short text = true).
  { unfold too_short. apply orb_true_iff. destruct H as [->|H].
    - now left.
    - right. now apply Z.ltb_lt. }
  unfold generate_summary_with_bedrock, try_catch. now rewrite Hshort.
Qed.

(** C8.  For every text whose length after trimming is at least 50, the
    Summarizer calls the endpoint once.  The request it sends has one
    message, of the role [user], and the content of that message is the
    fixed lines up to [Document text:], then exactly the first 8000
    characters of the input text, then the fixed rest: the embedded text
    is a prefix of the input, 8000 characters long when the input has
    that many (a text of 20000 characters included), the whole input
    otherwise. *)
Theorem summary_request_embeds_first_8000 (text : str) (st : state) :
  (50 <= len (strip text))%Z ->
  exists out w' rest suffix request message,
    generate_summary_with_bedrock text st
    = (Ok out,
       after st w'
         (EvInvokeModel BEDROCK_MODEL_ID (json_dumps request) :: rest))
    /\ Forall (fun ev => is_invoke_model ev = false) rest
    /\ request
       = summary_request
           (summary_prompt_head ++ slice_to 8000 text ++ summary_prompt_tail)
    /\ Py.getitem_str request (lit "messages") = Ok (PList [message])
    /\ Py.getitem_str message (lit "role") = Ok (pstr "user")
    /\ Py.getitem_str message (lit "content")
       = Ok (PStr ((src_line "Please provide a comprehensive summary of the following document. "
                   ++ src_line "Include the main topics, key points, and any important details."
                   ++ src_line "Keep the summary clear and well-structured."
                   ++ blank_line
                   ++ src_line "Document text:"
                   ++ blank_line)
                   ++ slice_to 8000 text
                   ++ lit "  # Limit text to avoid token limits"
                   ++ blank_line
                   ++ src_line "Summary:"
                   ++ blank_line))
    /\ text = slice_to 8000 text ++ suffix
    /\ List.length (slice_to 8000 text)
       = Nat.min (N.to_nat 8000) (List.length text).
Proof.
  intros Hlen.
  destruct (generate_summary_calls text st (too_short_false _ Hlen))
    as (out & w' & rest & Erun & Hrest).
  exists out, w', rest, (skipn (N.to_nat 8000) text),
         (summary_request (summary_prompt text)),
         (PDict [ kv "role" (pstr "user");
                  kv "content" (PStr (summary_prompt text)) ]).
  split; [exact Erun|]. split; [exact Hrest|].
  split; [reflexivity|]. split; [reflexivity|]. split; [reflexivity|].
  split; [reflexivity|]. split.
  - unfold slice_to. now rewrite firstn_skipn.
  - unfold slice_to. apply length_firstn.
Qed.

(** C9.  For every text whose length after trimming is at least 50, the
    prompt that the Summarizer sends to the endpoint (the content of the
    one message of its request) has, immediately after the truncated
    document text, the literal text
    ["  # Limit text to avoid token limits"]: the comment of the source
    line is part of the f-string. *)
Theorem summary_prompt_carries_source_comment (text : str) (st : state) :
  (50 <= len (strip text))%Z ->
  exists out w' rest before following request message,
    generate_summary_with_bedrock text st
    = (Ok out,
       after st w'
         (EvInvokeModel BEDROCK_MODEL_ID (json_dumps request) :: rest))
    /\ request
       = summary_request
           (before ++ slice_to 8000 text
            ++ lit "  # Limit text to avoid token limits"
            ++ following)
    /\ Py.getitem_str request (lit "messages") = Ok (PList [message])
    /\ Py.getitem_str message (lit "content")
       = Ok (PStr (before ++ slice_to 8000 text
                   ++ lit "  # Limit text to avoid token limits"
                   ++ following))
    /\ before
       = src_line "Please provide a comprehensive summary of the following document. "
         ++ src_line "Include the main topics, key points, and any important details."
         ++ src_line "Keep the summary clear and well-structured."
         ++ blank_line
         ++ src_line "Document text:"
         ++ blank_line
    /\ following = blank_line ++ src_line "Summary:" ++ blank_line.
Proof.
  intros Hlen.
  destruct (generate_summary_calls text st (too_short_false _ Hlen))
    as (out & w' & rest & Erun & _).
  exists out, w', rest, summary_prompt_head,
         (blank_line ++ src_line "Summary:" ++ blank_line),
         (summary_request (summary_prompt text)),
         (PDict [ kv "role" (pstr "user");
                  kv "content" (PStr (summary_prompt text)) ]).
  split; [exact Erun|]. repeat split.
Qed.

End Claims.

(** On keys that have a ['.'] the code and the documented rule pick the
    same path. *)
Lemma dispatch_agrees_on_dotted_keys key :
  after_last_dot key <> None ->
  file_extension key = documented_extension key
  /\ uses_vision key = documented_uses_vision key.
Proof.
  intros Hdot. unfold uses_vision, documented_uses_vision.
  assert (E : file_extension key = documented_extension key).
  { rewrite file_extension_spec. unfold documented_extension.
    destruct (after_last_dot key); [reflexivity | congruence]. }
  now rewrite E.
Qed.

(** On keys without ['.'] the code takes the whole lower-cased key. *)
Lemma file_extension_without_dot key :
  after_last_dot key = None -> file_extension key = lower key.
Proof. intros H. now rewrite file_extension_spec, H. Qed.

(** C2.  For a key without ['.'] the Text Extractor takes the whole
    lower-cased key as the extension, not the empty string: the key [pdf]
    has the extension [pdf], so it is sent to the Vision-Inference
    Extractor (the endpoint is called), where the documented rule gives
    the empty extension and the Direct Decoder. *)
Theorem dotless_pdf_key_is_sent_to_vision :
  file_extension (lit "pdf") = lit "pdf"
  /\ uses_vision (lit "pdf") = true
  /\ documented_extension (lit "pdf") = []
  /\ documented_uses_vision (lit "pdf") = false
  /\ existsb is_invoke_model
       (trace (snd (extract_text_from_document
                      (SV := Fixture.services true) (pstr "uploads") (lit "pdf")
                      (Fixture.start (Fixture.services true) 0%nat))))
     = true.
Proof. repeat split; vm_compute; reflexivity. Qed.

(* ================================================================== *)
(** * Further properties of the code *)

(** ** Calls made *)

Lemma count_app f a b : count f (a ++ b) = (count f a + count f b)%nat.
Proof. unfold count. now rewrite filter_app, length_app. Qed.

Lemma within_nil b : within b [].
Proof. unfold within, count; simpl. repeat split; lia. Qed.

Lemma within_app a b e1 e2 :
  within a e1 -> within b e2 -> within (plus a b) (e1 ++ e2).
Proof.
  unfold within. intros (H1 & H2 & H3 & H4) (K1 & K2 & K3 & K4).
  rewrite !count_app; simpl. repeat split; lia.
Qed.

Lemma within_le a b evs :
  (heads a <= heads b /\ gets a <= gets b
   /\ invokes a <= invokes b /\ puts a <= puts b)%nat ->
  within a evs -> within b evs.
Proof.
  unfold within. intros (L1 & L2 & L3 & L4) (H1 & H2 & H3 & H4).
  repeat split; lia.
Qed.

Lemma within_single ev : within (cost ev) [ev].
Proof. unfold within, count, cost; simpl. destruct ev; simpl; repeat split; lia. Qed.

Lemma times_le n m b :
  (n <= m)%nat ->
  (heads (times n b) <= heads (times m b)
   /\ gets (times n b) <= gets (times m b)
   /\ invokes (times n b) <= invokes (times m b)
   /\ puts (times n b) <= puts (times m b))%nat.
Proof.
  induction 1 as [|m Hle IH]; [repeat split; lia|].
  simpl. destruct IH as (I1 & I2 & I3 & I4). repeat split; lia.
Qed.

Section SpendingFacts.
Context {SV : Services}.

Lemma spends_le {A} (m : M A) a b :
  spends m a ->
  (heads a <= heads b /\ gets a <= gets b
   /\ invokes a <= invokes b /\ puts a <= puts b)%nat ->
  spends m b.
Proof.
  intros Hm Hle st r st' E. destruct (Hm _ _ _ E) as (evs & T & Hw).
  exists evs. split; [exact T|]. eapply within_le; eauto.
Qed.

Lemma spends_ret {A} (a : A) : spends (ret a) no_calls.
Proof.
  intros st r st' E. inversion E; subst. exists [].
  split; [now rewrite app_nil_r | apply within_nil].
Qed.

Lemma spends_raise {A} (e : exn) : spends (raise (A := A) e) no_calls.
Proof.
  intros st r st' E. inversion E; subst. exists [].
  split; [now rewrite app_nil_r | apply within_nil].
Qed.

Lemma spends_lift {A} (o : outcome A) : spends (lift o) no_calls.
Proof.
  intros st r st' E. inversion E; subst. exists [].
  split; [now rewrite app_nil_r | apply within_nil].
Qed.

Lemma spends_sample {A} (f : W -> A * W) : spends (sample f) no_calls.
Proof.
  intros st r st' E. unfold sample in E.
  destruct (f (world st)) as [a w']. inversion E; subst. exists [].
  split; [simpl; now rewrite app_nil_r | apply within_nil].
Qed.

Lemma spends_log lvl msg : spends (log lvl msg) no_calls.
Proof.
  intros st r st' E. inversion E; subst. exists [EvLog lvl msg].
  split; [reflexivity|]. unfold within, count; simpl. repeat split; lia.
Qed.

Lemma spends_call {A} ev (f : W -> outcome A * W) : spends (call ev f) (cost ev).
Proof.
  intros st r st' E. unfold call in E.
  destruct (f (world st)) as [a w']. inversion E; subst. exists [ev].
  split; [reflexivity | apply within_single].
Qed.

Lemma spends_head_object {A} bucket key (f : W -> outcome A * W) :
  spends (call (EvHeadObject bucket key) f)
         {| heads := 1; gets := 0; invokes := 0; puts := 0 |}.
Proof. apply (spends_call (EvHeadObject bucket key)). Qed.

Lemma spends_get_object {A} bucket key (f : W -> outcome A * W) :
  spends (call (EvGetObject bucket key) f)
         {| heads := 0; gets := 1; invokes := 0; puts := 0 |}.
Proof. apply (spends_call (EvGetObject bucket key)). Qed.

Lemma spends_invoke_model {A} model_id body (f : W -> outcome A * W) :
  spends (call (EvInvokeModel model_id body) f)
         {| heads := 0; gets := 0; invokes := 1; puts := 0 |}.
Proof. apply (spends_call (EvInvokeModel model_id body)). Qed.

Lemma spends_put_item {A} item (f : W -> outcome A * W) :
  spends (call (EvPutItem item) f)
         {| heads := 0; gets := 0; invokes := 0; puts := 1 |}.
Proof. apply (spends_call (EvPutItem item)). Qed.

Lemma spends_bind {A B} (m : M A) (k : A -> M B) a b :
  spends m a -> (forall x, spends (k x) b) -> spends (bind m k) (plus a b).
Proof.
  intros Hm Hk st r st' E. unfold bind in E.
  destruct (m st) as [[x|e] s1] eqn:Em;
    destruct (Hm _ _ _ Em) as (e1 & T1 & W1).
  - destruct (Hk x _ _ _ E) as (e2 & T2 & W2).
    exists (e1 ++ e2). split; [now rewrite T2, T1, app_assoc|].
    now apply within_app.
  - inversion E; subst. exists e1. split; [exact T1|].
    eapply within_le; [|exact W1]. simpl. repeat split; lia.
Qed.

Lemma spends_try_catch {A} (m : M A) (h : exn -> M A) a b :
  spends m a -> (forall e, spends (h e) b) -> spends (try_catch m h) (plus a b).
Proof.
  intros Hm Hh st r st' E. unfold try_catch in E.
  destruct (m st) as [[x|e] s1] eqn:Em;
    destruct (Hm _ _ _ Em) as (e1 & T1 & W1).
  - inversion E; subst. exists e1. split; [exact T1|].
    eapply within_le; [|exact W1]. simpl. repeat split; lia.
  - destruct (Hh e _ _ _ E) as (e2 & T2 & W2).
    exists (e1 ++ e2). split; [now rewrite T2, T1, app_assoc|].
    now apply within_app.
Qed.

Lemma spends_if {A} (c : bool) (m1 m2 : M A) a b :
  spends m1 a -> spends m2 b -> spends (if c then m1 else m2) (plus a b).
Proof.
  intros H1 H2. destruct c; [eapply spends_le; [exact H1|]
                            | eapply spends_le; [exact H2|]];
    simpl; repeat split; lia.
Qed.

End SpendingFacts.

Create HintDb spending.

(** Decompose a computation into its steps, adding up their budgets. *)
Ltac spend_step :=
  lazymatch goal with
  | |- spends (try_catch _ _) _ => eapply spends_try_catch
  | |- spends (bind _ _) _ => eapply spends_bind
  | |- spends (if _ then _ else _) _ => eapply spends_if
  | |- spends (call (EvHeadObject _ _) _) _ => eapply spends_head_object
  | |- spends (call (EvGetObject _ _) _) _ => eapply spends_get_object
  | |- spends (call (EvInvokeModel _ _) _) _ => eapply spends_invoke_model
  | |- spends (call (EvPutItem _) _) _ => eapply spends_put_item
  | |- spends (log _ _) _ => eapply spends_log
  | |- spends (ret _) _ => eapply spends_ret
  | |- spends (raise _) _ => eapply spends_raise
  | |- spends (lift _) _ => eapply spends_lift
  | |- spends (sample _) _ => eapply spends_sample
  | |- spends (let _ := _ in _) _ => cbv zeta
  | |- spends (let (_, _) := ?u in _) _ => destruct u
  | |- forall _, _ => intro
  | |- spends _ _ => solve [eauto 2 with spending]
  end.

Ltac spend_steps := repeat spend_step.

Ltac spend :=
  eapply spends_le; [spend_steps | simpl; repeat split; lia].

Section StageSpending.
Context {SV : Services}.

Lemma spends_extract_text_directly bucket key :
  spends (extract_text_directly bucket key)
         {| heads := 0; gets := 1; invokes := 0; puts := 0 |}.
Proof. unfold extract_text_directly. spend. Qed.

Lemma spends_has_content response_body :
  spends (has_content response_body) no_calls.
Proof. unfold has_content. spend. Qed.

Lemma spends_first_text response_body :
  spends (first_text response_body) no_calls.
Proof. unfold first_text. spend. Qed.

#[local] Hint Resolve spends_extract_text_directly spends_has_content
  spends_first_text : spending.

Lemma spends_vision_answer raw : spends (vision_answer raw) no_calls.
Proof. unfold vision_answer. spend. Qed.

Lemma spends_summary_answer raw : spends (summary_answer raw) no_calls.
Proof. unfold summary_answer. spend. Qed.

#[local] Hint Resolve spends_vision_answer spends_summary_answer : spending.

Lemma spends_vision bucket key :
  spends (extract_text_with_bedrock_data_automation bucket key)
         {| heads := 0; gets := 2; invokes := 1; puts := 0 |}.
Proof.
  unfold extract_text_with_bedrock_data_automation, vision_request. spend.
Qed.

#[local] Hint Resolve spends_vision : spending.

Lemma spends_extract_text_from_document bucket key :
  spends (extract_text_from_document bucket key)
         {| heads := 0; gets := 2; invokes := 1; puts := 0 |}.
Proof.
  unfold extract_text_from_document.
  destruct (str_in (file_extension key) vision_extensions); spend.
Qed.

Lemma spends_get_document_metadata bucket key :
  spends (get_document_metadata bucket key)
         {| heads := 1; gets := 0; invokes := 0; puts := 0 |}.
Proof. unfold get_document_metadata. spend. Qed.

Lemma spends_generate_summary text :
  spends (generate_summary_with_bedrock text)
         {| heads := 0; gets := 0; invokes := 1; puts := 0 |}.
Proof. unfold generate_summary_with_bedrock. spend. Qed.

Lemma spends_store_document_data document_id bucket key md raw_text summary :
  spends (store_document_data document_id bucket key md raw_text summary)
         {| heads := 0; gets := 0; invokes := 0; puts := 1 |}.
Proof. unfold store_document_data. spend. Qed.

#[local] Hint Resolve spends_extract_text_from_document spends_get_document_metadata
  spends_generate_summary spends_store_document_data : spending.

Lemma spends_upstream bucket key :
  spends (upstream bucket key)
         {| heads := 1; gets := 2; invokes := 2; puts := 0 |}.
Proof. unfold upstream. spend. Qed.

#[local] Hint Resolve spends_upstream : spending.

Lemma spends_process_s3_record record :
  spends (process_s3_record record) notification_budget.
Proof. unfold process_s3_record. spend. Qed.

Lemma spends_bind_lift {A B} (o : outcome A) (k : A -> M B) b :
  (forall x, o = Ok x -> spends (k x) b) -> spends (bind (lift o) k) b.
Proof.
  intros Hk st r st' E. unfold bind, lift in E. destruct o as [x|e].
  - exact (Hk x eq_refl _ _ _ E).
  - inversion E; subst. exists [].
    split; [now rewrite app_nil_r | apply within_nil].
Qed.

(** The loop spends at most one notification budget per upload event. *)
Lemma spends_process_records records :
  forall acc,
    spends (process_records records acc)
           (times (List.length (upload_events records)) notification_budget).
Proof.
  induction records as [|record rest IH]; intros acc.
  - apply spends_ret.
  - simpl process_records. apply spends_bind_lift. intros src Esrc.
    unfold upload_events; simpl filter. unfold is_upload_event at 1.
    rewrite Esrc. destruct (is_s3_source src).
    + simpl. apply spends_bind; [apply spends_process_s3_record|].
      intros result. apply IH.
    + apply IH.
Qed.

Lemma spends_after_free {A B} (m : M A) (k : A -> M B) b :
  spends m no_calls -> (forall x, spends (k x) b) -> spends (bind m k) b.
Proof.
  intros Hm Hk. eapply spends_le; [eapply spends_bind; eauto|].
  simpl. repeat split; lia.
Qed.

Lemma spends_before_free {A B} (m : M A) (k : A -> M B) a :
  spends m a -> (forall x, spends (k x) no_calls) -> spends (bind m k) a.
Proof.
  intros Hm Hk. eapply spends_le; [eapply spends_bind; eauto|].
  simpl. repeat split; lia.
Qed.

Lemma spends_handler_free {A} (m : M A) (h : exn -> M A) a :
  spends m a -> (forall e, spends (h e) no_calls) -> spends (try_catch m h) a.
Proof.
  intros Hm Hh. eapply spends_le; [eapply spends_try_catch; eauto|].
  simpl. repeat split; lia.
Qed.

(** The handler makes no call when the records cannot be read, and at
    most one notification budget of calls per upload event otherwise. *)
Lemma spends_lambda_handler event :
  spends (lambda_handler event) (times (uploads_of event) notification_budget).
Proof.
  unfold lambda_handler, uploads_of.
  apply spends_handler_free; [|intros e; spend].
  apply spends_after_free; [apply spends_log | intros _].
  apply spends_bind_lift. intros records_v ->.
  apply spends_bind_lift. intros records ->.
  apply spends_before_free; [apply spends_process_records | intros results].
  spend.
Qed.

End StageSpending.

(** ** The handler on events of any shape *)

Section HandlerFacts.
Context {SV : Services}.

(** X1.  Whatever the event is, [lambda_handler] returns a response and
    raises nothing; the status code of the response is 200 or 500. *)
Theorem handler_always_answers (event : pyval) (st : state) :
  exists resp st',
    lambda_handler event st = (Ok resp, st')
    /\ (statusCode resp = 200%Z \/ statusCode resp = 500%Z).
Proof.
  unfold lambda_handler, try_catch.
  match goal with
  | |- context [match ?body st with _ => _ end] =>
      destruct (body st) as [[resp|e] s1] eqn:E
  end.
  - exists resp, s1. split; [reflexivity|]. left.
    unfold bind, lift, ret in E. rewrite log_run in E; cbv beta iota in E.
    destruct (Py.getitem_str event (lit "Records")); [|discriminate].
    destruct (Py.iterate a); [|discriminate].
    destruct (process_records a0 [] _) as [[results|e'] s2]; [|discriminate].
    rewrite log_run in E. now inversion E.
  - unfold bind, ret. rewrite log_run.
    eexists; eexists; split; [reflexivity|]. now right.
Qed.

(** X2.  When [event['Records']] cannot be read, or what it holds cannot
    be iterated, the handler answers 500 with the message of that error;
    it has logged two lines and called no service. *)
Theorem handler_rejects_unreadable_batch (event : pyval) (st : state) (e : exn) :
  Py.getitem_str event (lit "Records") = Raise e
  \/ (exists records_v,
         Py.getitem_str event (lit "Records") = Ok records_v
         /\ Py.iterate records_v = Raise e) ->
  lambda_handler event st
  = (Ok (failure_response e),
     after st (world st) [entry_log event; abort_log e]).
Proof.
  intros H. unfold lambda_handler, try_catch, bind, lift, ret.
  rewrite log_run; cbv beta iota.
  destruct H as [-> | (records_v & -> & Hiter)]; cbv beta iota.
  - now rewrite log_run, after_after.
  - rewrite Hiter. now rewrite log_run, after_after.
Qed.

Lemma batch_of_other_sources records (st : state) :
  forallb names_other_source records = true -> batch_run records st [] st.
Proof.
  induction records as [|record rest IH]; intros H; [constructor|].
  simpl in H. apply andb_true_iff in H as [Hrec Hrest].
  unfold names_other_source in Hrec.
  destruct (Py.getitem_str record (lit "eventSource")) as [src|e] eqn:Esrc;
    [|discriminate].
  eapply batch_skip; eauto. now apply negb_true_iff.
Qed.

(** X3.  A batch in which every record names a source other than
    ['aws:s3'] (the empty batch included) is answered with 200 and an
    empty list of results; the records are skipped: no service is called
    and the world is left as it was. *)
Theorem handler_skips_other_sources
    (event records_v : pyval) (records : list pyval) (st : state) :
  Py.getitem_str event (lit "Records") = Ok records_v ->
  Py.iterate records_v = Ok records ->
  forallb names_other_source records = true ->
  lambda_handler event st
  = (Ok (success_response []),
     after st (world st) [entry_log event; exit_log []]).
Proof.
  intros Hrec Hiter Hother.
  rewrite (lambda_handler_sound event Hrec Hiter
             (batch_of_other_sources _ _ Hother)).
  now rewrite after_after.
Qed.

(** What [process_s3_record] does with a record whose bucket or key
    cannot be read: its handler reads them again and the error leaves the
    function. *)
Lemma process_s3_record_unreadable record (st : state) e :
  record_fields record = Raise e ->
  process_s3_record record st
  = (Raise e,
     after st (world st)
       [EvLog Error (lit "Error processing S3 record: " ++ Py.exn_str e)]).
Proof.
  unfold record_fields. intros H.
  unfold process_s3_record, try_catch, bind, lift, ret.
  destruct (record_bucket record) as [bucket|e1]; cbv beta iota.
  - destruct (record_key record) as [key|e2]; [discriminate|].
    injection H as ->. rewrite log_run; cbv beta iota. reflexivity.
  - injection H as ->. rewrite log_run; cbv beta iota. reflexivity.
Qed.

(** X4.  [process_s3_record] raises exactly when the bucket or the key of
    its record cannot be read, and then it raises that reading error,
    having logged one line and called no service: for such a record the
    [try ... except] of the function isolates nothing. *)
Theorem process_s3_record_raises_iff_unreadable (record : pyval) (st : state) :
  (forall e,
      record_fields record = Raise e ->
      process_s3_record record st
      = (Raise e,
         after st (world st)
           [EvLog Error (lit "Error processing S3 record: " ++ Py.exn_str e)]))
  /\ (forall e st',
         process_s3_record record st = (Raise e, st') ->
         record_fields record = Raise e).
Proof.
  split; [intros e; apply process_s3_record_unreadable|].
  intros e st' E. unfold record_fields.
  destruct (record_bucket record) as [bucket|e1] eqn:Hb.
  - destruct (record_key record) as [key|e2] eqn:Hk.
    + destruct (process_s3_record_outcome record st Hb Hk)
        as (result & st1 & E' & _).
      rewrite E' in E. discriminate.
    + rewrite (process_s3_record_unreadable record st (e := e2)) in E;
        [now inversion E | unfold record_fields; now rewrite Hb, Hk].
  - rewrite (process_s3_record_unreadable record st (e := e1)) in E;
      [now inversion E | unfold record_fields; now rewrite Hb].
Qed.

(** The loop, once the records before [bad] have been processed. *)
Lemma process_records_prefix pre (st : state) results st1 :
  batch_run pre st results st1 ->
  forall rest acc,
    process_records (pre ++ rest) acc st
    = process_records rest (acc ++ results) st1.
Proof.
  induction 1 as [st | record src pre st results st' Esrc Hs3 _ IH
                  | record src pre st result st1 results st' Esrc Hs3 Hout _ IH];
    intros rest acc; simpl.
  - now rewrite app_nil_r.
  - unfold bind, lift. rewrite Esrc, Hs3. apply IH.
  - unfold bind, lift. rewrite Esrc, Hs3.
    rewrite (item_outcome_sound Hout), IH. now rewrite <- app_assoc.
Qed.

(** X5.  When the loop meets a record it cannot read, after records that
    were processed, the handler answers 500 with the message of the
    reading error and reports none of the results obtained so far; the
    records after it are not looked at, and the world is the one the
    processed records left: what was written for them stays written. *)
Theorem handler_aborts_at_unreadable_record
    (event records_v : pyval) (pre : list pyval) (bad : pyval)
    (post : list pyval) (st : state) (results : list processing_result)
    (st1 : state) (e : exn) :
  Py.getitem_str event (lit "Records") = Ok records_v ->
  Py.iterate records_v = Ok (pre ++ bad :: post) ->
  batch_run pre (after st (world st) [entry_log event]) results st1 ->
  unreadable bad e ->
  exists logs,
    lambda_handler event st
    = (Ok (failure_response e), after st1 (world st1) logs)
    /\ forallb is_log logs = true.
Proof.
  intros Hrec Hiter Hrun Hbad.
  unfold lambda_handler, try_catch, bind at 1, lift, ret.
  rewrite log_run; cbv beta iota.
  unfold bind at 1. rewrite Hrec; cbv beta iota.
  unfold bind at 1. rewrite Hiter; cbv beta iota.
  unfold bind at 1. fold (entry_log event).
  rewrite (process_records_prefix Hrun (bad :: post) []).
  simpl process_records. unfold bind at 1, lift.
  destruct Hbad as [-> | (src & -> & -> & Hfields)]; cbv beta iota.
  - exists [abort_log e]. unfold bind. rewrite log_run. now split.
  - unfold bind at 1.
    rewrite (process_s3_record_unreadable bad st1 Hfields); cbv beta iota.
    eexists. unfold bind. rewrite log_run, after_after. now split.
Qed.

End HandlerFacts.

(** ** What is written, and how often *)

Section WriteFacts.
Context {SV : Services}.


(** The stages before the write read the metadata once and write
    nothing. *)
Lemma upstream_reads_metadata_once bucket key (st : state) r st' :
  upstream bucket key st = (r, st') ->
  exists evs,
    trace st' = trace st ++ evs
    /\ count is_put_item evs = 0%nat
    /\ count is_head_object evs = 1%nat.
Proof.
  unfold upstream. intros E. unfold bind at 1, sample in E.
  destruct (uuid4 (world st)) as [document_id w0].
  unfold bind at 1 in E.
  destruct (get_document_metadata bucket key _) as [[md|e] s1] eqn:Emd.
  - assert (Hmd : exists d1, trace s1 = trace st ++ d1
                             /\ count is_put_item d1 = 0%nat
                             /\ count is_head_object d1 = 1%nat).
    { rewrite get_document_metadata_run in Emd. simpl world in Emd.
      destruct (s3_head_object bucket key w0) as [[resp|e] w1];
        destruct (datetime_now w1) as [now w2]; inversion Emd; subst;
        eexists; (split; [reflexivity|]); now split. }
    destruct Hmd as (d1 & T1 & P1 & H1).
    unfold bind at 1 in E.
    destruct (extract_text_from_document bucket key s1) as [[text|e] s2] eqn:Eex;
      destruct (spends_extract_text_from_document bucket key _ Eex)
        as (d2 & T2 & (H2 & _ & _ & P2)); simpl in H2, P2.
    + unfold bind at 1 in E.
      destruct (generate_summary_with_bedrock text s2) as [[summary|e] s3] eqn:Esum;
        destruct (spends_generate_summary text _ Esum)
          as (d3 & T3 & (H3 & _ & _ & P3)); simpl in H3, P3;
        inversion E; subst;
        exists (d1 ++ d2 ++ d3);
        (split; [now rewrite T3, T2, T1, <- !app_assoc|]);
        rewrite !count_app; lia.
    + inversion E; subst. exists (d1 ++ d2).
      split; [now rewrite T2, T1, <- app_assoc|].
      rewrite !count_app; lia.
  - destruct (get_document_metadata_total bucket key
                {| world := w0; trace := trace st |}) as (md & s1' & Emd').
    rewrite Emd' in Emd. discriminate.
Qed.

Lemma item_outcome_calls record (st : state) result st1 :
  item_outcome record st result st1 ->
  exists evs,
    trace st1 = trace st ++ evs
    /\ count is_put_item evs = 1%nat
    /\ count is_head_object evs = 1%nat.
Proof.
  intros H; inversion H; subst;
    match goal with
    | Hup : upstream _ _ _ = _ |- _ =>
        destruct (upstream_reads_metadata_once _ _ _ Hup) as (d & T & P & Hd)
    end;
    simpl trace in T; unfold after; simpl trace; rewrite T;
    rewrite <- !app_assoc;
    eexists; (split; [reflexivity|]);
    rewrite !count_app, P, Hd; unfold count;
    cbn [filter is_put_item is_head_object List.length]; lia.
Qed.

Lemma batch_run_calls records (st : state) results st' :
  batch_run records st results st' ->
  exists evs,
    trace st' = trace st ++ evs
    /\ count is_put_item evs = List.length results
    /\ count is_head_object evs = List.length results.
Proof.
  induction 1 as [st | record src rest st results st' Esrc Hs3 _ IH
                  | record src rest st result st1 results st' Esrc Hs3 Hout _ IH].
  - exists []. now rewrite app_nil_r.
  - exact IH.
  - destruct (item_outcome_calls Hout) as (d1 & T1 & P1 & H1).
    destruct IH as (d2 & T2 & P2 & H2).
    exists (d1 ++ d2). split; [now rewrite T2, T1, app_assoc|].
    rewrite !count_app. simpl. lia.
Qed.

(** X7.  In a batch of well-formed records every upload notification
    reads the metadata once and is written once, whether the write
    succeeds or fails: the handler makes as many [put_item] calls and as
    many [head_object] calls as there are upload events, and returns as
    many results. *)
Theorem each_notification_is_written_once
    (event records_v : pyval) (records : list pyval) (st : state) :
  Py.getitem_str event (lit "Records") = Ok records_v ->
  Py.iterate records_v = Ok records ->
  forallb well_formed_record records = true ->
  exists results st' evs,
    lambda_handler event st = (Ok (success_response results), st')
    /\ trace st' = trace st ++ evs
    /\ List.length results = List.length (upload_events records)
    /\ count is_put_item evs = List.length (upload_events records)
    /\ count is_head_object evs = List.length (upload_events records).
Proof.
  intros Hrec Hiter Hwf.
  destruct (lambda_handler_run event st Hrec Hiter Hwf)
    as (results & st1 & Hrun & Ehandler).
  destruct (batch_run_calls Hrun) as (d & T & P & H).
  pose proof (Forall2_length (batch_run_results Hrun)) as Hlen.
  exists results. eexists. exists ([entry_log event] ++ d ++ [exit_log results]).
  split; [exact Ehandler|]. split.
  - unfold after; simpl trace. rewrite T. simpl trace.
    now rewrite <- !app_assoc.
  - rewrite !count_app, P, H, Hlen. unfold count, entry_log, exit_log.
    cbn [filter is_put_item is_head_object List.length]. lia.
Qed.

Lemma times_notification_budget n :
  heads (times n notification_budget) = n
  /\ gets (times n notification_budget) = (2 * n)%nat
  /\ invokes (times n notification_budget) = (2 * n)%nat
  /\ puts (times n notification_budget) = n.
Proof.
  induction n as [|n (I1 & I2 & I3 & I4)]; [now repeat split|].
  simpl. repeat split; lia.
Qed.

(** X8.  Whatever the event is and however the services answer, a run of
    the handler only appends to the trace, and for an event with [n]
    upload events it makes at most [n] metadata reads, [2 n] object
    reads, [2 n] inference calls and [n] writes: nothing is retried. *)
Theorem handler_call_budget
    (event : pyval) (st : state) (r : outcome response) (st' : state) :
  lambda_handler event st = (r, st') ->
  exists evs,
    trace st' = trace st ++ evs
    /\ (count is_head_object evs <= uploads_of event)%nat
    /\ (count is_get_object evs <= 2 * uploads_of event)%nat
    /\ (count is_invoke_model evs <= 2 * uploads_of event)%nat
    /\ (count is_put_item evs <= uploads_of event)%nat.
Proof.
  intros E. destruct (spends_lambda_handler event _ E) as (evs & T & Hw).
  exists evs. split; [exact T|].
  destruct (times_notification_budget (uploads_of event)) as (E1 & E2 & E3 & E4).
  unfold within in Hw. now rewrite E1, E2, E3, E4 in Hw.
Qed.

(** X9.  Each stage makes only the calls that are its own, whatever the
    services answer: the Metadata Fetcher at most one [head_object]; the
    Direct Decoder at most one [get_object]; the Vision-Inference
    Extractor at most two [get_object] (the second by its fallback) and
    one inference call; the Text Extractor no more than that; the
    Summarizer at most one inference call; the Record Writer at most one
    [put_item]; and the processing of one record at most one metadata
    read, two object reads, two inference calls and one write. *)
Theorem stages_make_only_their_own_calls
    (record bucket : pyval) (key document_id text summary : str)
    (md : document_metadata) :
  spends (get_document_metadata bucket key)
         {| heads := 1; gets := 0; invokes := 0; puts := 0 |}
  /\ spends (extract_text_directly bucket key)
            {| heads := 0; gets := 1; invokes := 0; puts := 0 |}
  /\ spends (extract_text_with_bedrock_data_automation bucket key)
            {| heads := 0; gets := 2; invokes := 1; puts := 0 |}
  /\ spends (extract_text_from_document bucket key)
            {| heads := 0; gets := 2; invokes := 1; puts := 0 |}
  /\ spends (generate_summary_with_bedrock text)
            {| heads := 0; gets := 0; invokes := 1; puts := 0 |}
  /\ spends (store_document_data document_id bucket key md text summary)
            {| heads := 0; gets := 0; invokes := 0; puts := 1 |}
  /\ spends (process_s3_record record)
            {| heads := 1; gets := 2; invokes := 2; puts := 1 |}.
Proof.
  repeat split.
  - apply spends_get_document_metadata.
  - apply spends_extract_text_directly.
  - apply spends_vision.
  - apply spends_extract_text_from_document.
  - apply spends_generate_summary.
  - apply spends_store_document_data.
  - apply spends_process_s3_record.
Qed.

End WriteFacts.

(** ** The Text Extractor *)

Lemma decode_utf8_length (n : nat) :
  forall ignore bs text,
    (List.length bs <= n)%nat ->
    decode_utf8 ignore bs = Ok text ->
    (List.length text <= List.length bs)%nat.
Proof.
  induction n as [|n IH]; intros ignore bs text Hlen H.
  - destruct bs; [|simpl in Hlen; lia]. inversion H. simpl. lia.
  - destruct bs as [|b0 r0]; [inversion H; simpl; lia|].
    simpl in Hlen. simpl in H.
    assert (Hrec : forall r t, (List.length r <= List.length r0)%nat ->
                               decode_utf8 ignore r = Ok t ->
                               (List.length t <= List.length r)%nat).
    { intros r t Hr Ht. apply (IH ignore r t); [lia | exact Ht]. }
    assert (Hcons : forall c r t, (List.length r <= List.length r0)%nat ->
                                  cons_ok c (decode_utf8 ignore r) = Ok t ->
                                  (List.length t <= S (List.length r))%nat).
    { intros c r t Hr Ht. destruct (decode_utf8 ignore r) as [s|] eqn:Es;
        [|discriminate]. inversion Ht; subst. simpl.
      specialize (Hrec r s Hr Es). lia. }
    assert (Hbad : forall t, (if ignore then decode_utf8 ignore r0
                              else Raise (UnicodeDecodeError (lit "utf-8")))
                             = Ok t ->
                             (List.length t <= S (List.length r0))%nat).
    { intros t Ht. destruct ignore; [|discriminate].
      specialize (Hrec r0 t (le_n _) Ht). lia. }
    simpl List.length.
    destruct (classify (Byte.to_N b0)).
    + apply (Hcons _ r0 _ (le_n _) H).
    + destruct r0 as [|b1 r1]; [now apply Hbad|].
      destruct (in_range 128 191 b1); [|now apply Hbad].
      apply Hcons in H; simpl in *; lia.
    + destruct r0 as [|b1 [|b2 r2]]; try (now apply Hbad).
      destruct (in_range lo1 hi1 b1 && in_range 128 191 b2);
        [|now apply Hbad].
      apply Hcons in H; simpl in *; lia.
    + destruct r0 as [|b1 [|b2 [|b3 r3]]]; try (now apply Hbad).
      destruct (in_range lo1 hi1 b1 && in_range 128 191 b2
                && in_range 128 191 b3); [|now apply Hbad].
      apply Hcons in H; simpl in *; lia.
    + now apply Hbad.
Qed.

Lemma decode_text_run (content : bytes) :
  decode_text content
  = Ok (match decode_utf8 false content with
        | Ok text => text
        | Raise _ => map Byte.to_N content
        end).
Proof.
  unfold decode_text. rewrite decode_chain_run.
  now destruct (decode_utf8 false content).
Qed.

Section ExtractorFacts.
Context {SV : Services}.

(** What the Text Extractor runs, once its first line is logged. *)
Lemma extract_text_from_document_run bucket key (st : state) :
  extract_text_from_document bucket key st
  = (if uses_vision key
     then extract_text_with_bedrock_data_automation bucket key
     else extract_text_directly bucket key)
      (after st (world st)
         [EvLog Info (lit "Extracting text from document: " ++ key)]).
Proof.
  unfold extract_text_from_document, try_catch, bind, uses_vision.
  rewrite log_run; cbv beta iota zeta.
  destruct (str_in (file_extension key) vision_extensions).
  - now destruct (extract_text_with_bedrock_total bucket key
                    (after st (world st)
                       [EvLog Info (lit "Extracting text from document: " ++ key)]))
      as (text & st' & ->).
  - now destruct (extract_text_directly_total bucket key
                    (after st (world st)
                       [EvLog Info (lit "Extracting text from document: " ++ key)]))
      as (text & st' & ->).
Qed.

(** X10.  The outer [try ... except] of [extract_text_from_document]
    never catches anything: the function logs one line and returns what
    the extractor chosen by the extension returns, because both
    extractors handle their own failures. *)
Theorem extraction_dispatch_never_fails
    (bucket : pyval) (key : str) (st : state) :
  extract_text_from_document bucket key st
  = (if uses_vision key
     then extract_text_with_bedrock_data_automation bucket key
     else extract_text_directly bucket key)
      (after st (world st)
         [EvLog Info (lit "Extracting text from document: " ++ key)])
  /\ exists text st', extract_text_from_document bucket key st = (Ok text, st').
Proof.
  split; [apply extract_text_from_document_run
         | apply extract_text_from_document_total].
Qed.

(** X11.  For a key whose extension is not one of the seven, the Text
    Extractor reads the object once and calls no other service.  When the
    read succeeds the text is the UTF-8 decoding of the content if the
    content is well-formed UTF-8, and its Latin-1 decoding otherwise; when
    the read fails the text is the placeholder
    ["Unable to extract text from file: "] followed by the message. *)
Theorem plain_file_is_decoded_directly
    (bucket : pyval) (key : str) (st : state) :
  uses_vision key = false ->
  (forall content w1,
      s3_get_object bucket key (world st) = (Ok content, w1) ->
      extract_text_from_document bucket key st
      = (Ok (match decode_utf8 false content with
             | Ok text => text
             | Raise _ => map Byte.to_N content
             end),
         after st w1
           [ EvLog Info (lit "Extracting text from document: " ++ key);
             EvGetObject bucket key ]))
  /\ (forall e w1,
         s3_get_object bucket key (world st) = (Raise e, w1) ->
         extract_text_from_document bucket key st
         = (Ok (lit "Unable to extract text from file: " ++ Py.exn_str e),
            after st w1
              [ EvLog Info (lit "Extracting text from document: " ++ key);
                EvGetObject bucket key;
                EvLog Error (lit "Error reading file directly: "
                             ++ Py.exn_str e) ])).
Proof.
  intros Hplain.
  rewrite extract_text_from_document_run.
  rewrite Hplain.
  unfold extract_text_directly, try_catch, bind, lift, ret.
  split.
  - intros content w1 Hget. rewrite call_run. simpl world. rewrite Hget.
    simpl fst; simpl snd; cbv beta iota.
    rewrite decode_text_run; cbv beta iota. now rewrite after_after.
  - intros e w1 Hget. rewrite call_run. simpl world. rewrite Hget.
    simpl fst; simpl snd; cbv beta iota.
    now rewrite log_run, !after_after.
Qed.

(** X12.  The text that the Direct Decoder returns for an object it could
    read has at most as many characters as the object has bytes, and
    exactly as many when the content is not well-formed UTF-8. *)
Theorem decoded_text_is_no_longer_than_content
    (bucket : pyval) (key : str) (st : state) (content : bytes) (w1 : W) :
  s3_get_object bucket key (world st) = (Ok content, w1) ->
  exists text st',
    extract_text_directly bucket key st = (Ok text, st')
    /\ (len text <= Z.of_nat (List.length content))%Z
    /\ (forall e, decode_utf8 false content = Raise e ->
                  len text = Z.of_nat (List.length content)).
Proof.
  intros Hget.
  unfold extract_text_directly, try_catch, bind, lift, ret.
  rewrite call_run, Hget. simpl fst; simpl snd; cbv beta iota.
  rewrite decode_text_run; cbv beta iota.
  eexists; eexists; split; [reflexivity|].
  unfold len. destruct (decode_utf8 false content) as [text|e0] eqn:E; split.
  - apply Nat2Z.inj_le.
    exact (decode_utf8_length (n := List.length content) false content
             (le_n _) E).
  - intros e He. discriminate.
  - rewrite length_map. lia.
  - intros e _. now rewrite length_map.
Qed.

End ExtractorFacts.

Lemma vision_extension_cases ext :
  str_in ext vision_extensions = true -> In ext vision_extensions.
Proof.
  unfold str_in. intros H. apply existsb_exists in H as (x & Hin & Heq).
  destruct (str_eqb_spec ext x); [now subst | discriminate].
Qed.

(** X13.  Every key that the Text Extractor sends to the Vision-Inference
    Extractor has one of the six listed media types: the default
    ['application/octet-stream'] of the lookup is never used. *)
Theorem vision_media_type_is_listed (key : str) :
  uses_vision key = true ->
  In (map_get media_type_map (file_extension key)
              (lit "application/octet-stream"))
     vision_media_types
  /\ map_get media_type_map (file_extension key)
             (lit "application/octet-stream")
     <> lit "application/octet-stream".
Proof.
  unfold uses_vision. intros H. apply vision_extension_cases in H.
  simpl in H.
  repeat (destruct H as [<- | H]; [vm_compute; split; [tauto | discriminate]|]).
  contradiction.
Qed.

(** X14.  The path taken depends only on what follows the last ['.'] of
    the key, without regard to case: for a suffix without ['.'], the key
    [prefix.suffix] goes to the Vision-Inference Extractor exactly when
    the lower-cased suffix is one of the seven extensions, whatever the
    prefix is (other dots and directories included). *)
Theorem dispatch_depends_on_suffix_only (prefix suffix : str) :
  after_last_dot suffix = None ->
  uses_vision (prefix ++ 46 :: suffix)
  = str_in (lower suffix) vision_extensions.
Proof.
  intros Hsuffix. unfold uses_vision.
  rewrite file_extension_spec, after_last_dot_app. simpl.
  now rewrite Hsuffix.
Qed.

Lemma lstrip_by_head p s c r : lstrip_by p s = c :: r -> p c = false.
Proof.
  induction s as [|x t IH]; simpl; [discriminate|].
  destruct (p x) eqn:Hx; [exact IH|].
  intros H; injection H as <- _. exact Hx.
Qed.

Lemma rstrip_by_head p s c r :
  rstrip_by p s = c :: r -> exists t, s = c :: t.
Proof.
  destruct s as [|x t]; simpl; [discriminate|].
  destruct (rstrip_by p t); [destruct (p x)|];
    intros H; inversion H; subst; now exists t.
Qed.

Lemma rstrip_by_last p s :
  forall r c, rstrip_by p s = r ++ [c] -> p c = false.
Proof.
  induction s as [|x t IH]; intros r c; simpl.
  - destruct r; discriminate.
  - destruct (rstrip_by p t) as [|y t'] eqn:Et.
    + destruct (p x) eqn:Hx; [destruct r; discriminate|].
      destruct r as [|a [|b r]]; try discriminate.
      intros H; injection H as <-. exact Hx.
    + destruct r as [|a r]; [discriminate|].
      intros H; injection H as _ H. exact (IH r c H).
Qed.

(** What [strip] returns neither begins nor ends with a character of the
    stripped kind. *)
Lemma strip_by_edges p s :
  (forall c r, strip_by p s = c :: r -> p c = false)
  /\ (forall r c, strip_by p s = r ++ [c] -> p c = false).
Proof.
  unfold strip_by. split.
  - intros c r H. destruct (rstrip_by_head _ _ H) as (t & Ht).
    exact (lstrip_by_head _ _ Ht).
  - intros r c. apply rstrip_by_last.
Qed.

(** ** The Summarizer and the answers of the endpoint *)

Section AnswerFacts.
Context {SV : Services}.

(** X15.  The prompt of the Summarizer is the fixed frame of 311
    characters around at most 8000 characters of the text: whatever the
    size of the extracted text, the prompt has at most 8311 characters,
    and two texts that agree on their first 8000 characters give the same
    prompt. *)
Theorem summary_prompt_is_bounded (text other : str) :
  (len (summary_prompt text) <= 8311)%Z
  /\ (slice_to 8000 text = slice_to 8000 other ->
      summary_prompt text = summary_prompt other).
Proof.
  split.
  - unfold len, summary_prompt, slice_to.
    rewrite !length_app, length_firstn.
    change (List.length summary_prompt_head) with 240%nat.
    change (List.length summary_prompt_tail) with 71%nat.
    pose proof (Nat.le_min_l (N.to_nat 8000) (List.length text)) as Hmin.
    apply Nat2Z.inj_le in Hmin. rewrite N_nat_Z in Hmin.
    rewrite !Nat2Z.inj_add. change (Z.of_N 8000) with 8000%Z in Hmin. lia.
  - unfold summary_prompt. now intros ->.
Qed.

(** X16.  When the call of the endpoint made by the Summarizer raises,
    the Summarizer returns the placeholder ["Error generating summary: "]
    followed by the message of the exception; it has made that one call
    and logged one line. *)
Theorem summarizer_failure_gives_placeholder
    (text : str) (st : state) (e : exn) (w1 : W) :
  (50 <= len (strip text))%Z ->
  bedrock_invoke_model BEDROCK_MODEL_ID
    (json_dumps (summary_request (summary_prompt text))) (world st)
    = (Raise e, w1) ->
  generate_summary_with_bedrock text st
  = (Ok (lit "Error generating summary: " ++ Py.exn_str e),
     after st w1
       [ EvInvokeModel BEDROCK_MODEL_ID
           (json_dumps (summary_request (summary_prompt text)));
         EvLog Error (lit "Error generating summary with Bedrock: "
                      ++ Py.exn_str e) ]).
Proof.
  intros Hlen Hcall.
  unfold generate_summary_with_bedrock, try_catch.
  rewrite (too_short_false _ Hlen). unfold bind at 1.
  rewrite call_run, Hcall. simpl fst; simpl snd; cbv beta iota.
  unfold bind, ret. now rewrite log_run, after_after.
Qed.

(** Reading an answer that is a JSON object. *)
Lemma has_content_of_dict kvs (st : state) :
  has_content (PDict kvs) st
  = (Ok (match Py.dict_get kvs (lit "content") with
         | Some c => Py.truthy c
         | None => false
         end), st).
Proof.
  unfold has_content, bind, lift, ret. simpl.
  now destruct (Py.dict_get kvs (lit "content")).
Qed.

Lemma first_text_of_block kvs block more (st : state) :
  Py.dict_get kvs (lit "content") = Some (PList (PDict block :: more)) ->
  first_text (PDict kvs) st
  = (match Py.dict_get block (lit "text") with
     | Some v => Ok v
     | None => Raise (KeyError (lit "'" ++ lit "text" ++ lit "'"))
     end, st).
Proof.
  intros H. unfold first_text, bind, lift. simpl. rewrite H. simpl.
  now destruct (Py.dict_get block (lit "text")).
Qed.

(** X17.  When the endpoint answers the Summarizer with a JSON object:
    if its [content] is a list whose first block has a string under
    [text], the summary is that string trimmed, so it neither begins nor
    ends with white space; if [content] is missing or is an empty list,
    the summary is the literal
    ["Unable to generate summary - empty response from model."]; if the
    first block has no [text], the summary is the placeholder
    ["Error generating summary: 'text'"].  In each case the endpoint was
    called once. *)
Theorem summarizer_reads_answer
    (text : str) (st : state) (raw : bytes) (w1 : W)
    (kvs : list (str * pyval)) :
  (50 <= len (strip text))%Z ->
  bedrock_invoke_model BEDROCK_MODEL_ID
    (json_dumps (summary_request (summary_prompt text))) (world st)
    = (Ok raw, w1) ->
  json_loads raw = Ok (PDict kvs) ->
  let called :=
    EvInvokeModel BEDROCK_MODEL_ID
      (json_dumps (summary_request (summary_prompt text))) in
  (forall block more s,
      Py.dict_get kvs (lit "content") = Some (PList (PDict block :: more)) ->
      Py.dict_get block (lit "text") = Some (PStr s) ->
      generate_summary_with_bedrock text st
      = (Ok (strip s), after st w1 [called])
      /\ (forall c r, strip s = c :: r -> is_space c = false)
      /\ (forall r c, strip s = r ++ [c] -> is_space c = false))
  /\ (Py.dict_get kvs (lit "content") = None
      \/ Py.dict_get kvs (lit "content") = Some (PList []) ->
      generate_summary_with_bedrock text st
      = (Ok (lit "Unable to generate summary - empty response from model."),
         after st w1 [called]))
  /\ (forall block more,
         Py.dict_get kvs (lit "content") = Some (PList (PDict block :: more)) ->
         Py.dict_get block (lit "text") = None ->
         generate_summary_with_bedrock text st
         = (Ok (lit "Error generating summary: " ++ lit "'text'"),
            after st w1
              [ called;
                EvLog Error (lit "Error generating summary with Bedrock: "
                             ++ lit "'text'") ])).
Proof.
  intros Hlen Hcall Hjson called.
  assert (Hrun :
             generate_summary_with_bedrock text st
             = match summary_answer raw (after st w1 [called]) with
               | (Ok a, st') => (Ok a, st')
               | (Raise e, st') =>
                   bind (log Error (lit "Error generating summary with Bedrock: "
                                    ++ Py.exn_str e))
                        (fun _ => ret (lit "Error generating summary: "
                                       ++ Py.exn_str e)) st'
               end).
  { unfold generate_summary_with_bedrock, try_catch.
    rewrite (too_short_false _ Hlen). unfold bind at 1.
    rewrite call_run, Hcall. reflexivity. }
  unfold summary_answer, bind at 1, lift in Hrun. rewrite Hjson in Hrun.
  cbv beta iota in Hrun. unfold bind at 1 in Hrun.
  rewrite has_content_of_dict in Hrun.
  split; [|split].
  - intros block more s Hc Ht. rewrite Hrun, Hc.
    change (Py.truthy (PList (PDict block :: more))) with true.
    cbv beta iota. unfold bind at 1.
    erewrite first_text_of_block by exact Hc.
    rewrite Ht. cbv beta iota. split; [reflexivity|].
    exact (strip_by_edges is_space s).
  - intros Hc. rewrite Hrun.
    destruct Hc as [-> | ->]; reflexivity.
  - intros block more Hc Ht. rewrite Hrun, Hc.
    change (Py.truthy (PList (PDict block :: more))) with true.
    cbv beta iota. unfold bind at 1.
    erewrite first_text_of_block by exact Hc.
    rewrite Ht. cbv beta iota. unfold bind, ret.
    now rewrite log_run, after_after.
Qed.

End AnswerFacts.

Section VisionAnswerFacts.
Context {SV : Services}.

(** X18.  When the object could be read and the endpoint answers the
    Vision-Inference Extractor with a JSON object: if its [content] is a
    list whose first block has a string under [text], the extracted text
    is that string trimmed; if [content] is missing or is an empty list,
    it is the literal
    ["Unable to extract text - empty response from Bedrock"]; and if the
    first block has no [text], the extractor falls back to the Direct
    Decoder, which reads the object a second time. *)
Theorem vision_reads_answer
    (bucket : pyval) (key : str) (st : state) (content : bytes) (w1 : W)
    (raw : bytes) (w2 : W) (kvs : list (str * pyval)) :
  let request :=
    json_dumps
      (extraction_request
         (map_get media_type_map (file_extension key)
                  (lit "application/octet-stream"))
         (b64encode content)) in
  let fetched :=
    [ EvGetObject bucket key; EvInvokeModel BEDROCK_MODEL_ID request ] in
  s3_get_object bucket key (world st) = (Ok content, w1) ->
  bedrock_invoke_model BEDROCK_MODEL_ID request w1 = (Ok raw, w2) ->
  json_loads raw = Ok (PDict kvs) ->
  (forall block more s,
      Py.dict_get kvs (lit "content") = Some (PList (PDict block :: more)) ->
      Py.dict_get block (lit "text") = Some (PStr s) ->
      extract_text_with_bedrock_data_automation bucket key st
      = (Ok (strip s),
         after st w2
           (fetched ++
            [EvLog Info
               (lit "Successfully extracted text using Bedrock Data Automation: "
                ++ str_of_Z (len s) ++ lit " characters")])))
  /\ (Py.dict_get kvs (lit "content") = None
      \/ Py.dict_get kvs (lit "content") = Some (PList []) ->
      extract_text_with_bedrock_data_automation bucket key st
      = (Ok (lit "Unable to extract text - empty response from Bedrock"),
         after st w2
           (fetched ++
            [EvLog Warning (lit "Empty response from Bedrock Data Automation")])))
  /\ (forall block more,
         Py.dict_get kvs (lit "content") = Some (PList (PDict block :: more)) ->
         Py.dict_get block (lit "text") = None ->
         extract_text_with_bedrock_data_automation bucket key st
         = extract_text_directly bucket key
             (after st w2
                (fetched ++
                 [EvLog Error (lit "Error with Bedrock Data Automation: "
                               ++ lit "'text'")]))).
Proof.
  intros request fetched Hget Hcall Hjson.
  assert (Hrun :
             extract_text_with_bedrock_data_automation bucket key st
             = match vision_answer raw (after st w2 fetched) with
               | (Ok a, st') => (Ok a, st')
               | (Raise e, st') =>
                   bind (log Error (lit "Error with Bedrock Data Automation: "
                                    ++ Py.exn_str e))
                        (fun _ => extract_text_directly bucket key) st'
               end).
  { unfold extract_text_with_bedrock_data_automation, try_catch,
      vision_request.
    unfold bind at 1 2. rewrite call_run, Hget.
    simpl fst; simpl snd; cbv beta iota zeta.
    rewrite call_run. simpl world. fold request. rewrite Hcall.
    simpl fst; simpl snd; cbv beta iota. now rewrite after_after. }
  unfold vision_answer, bind at 1, lift in Hrun. rewrite Hjson in Hrun.
  cbv beta iota in Hrun. unfold bind at 1 in Hrun.
  rewrite has_content_of_dict in Hrun.
  split; [|split].
  - intros block more s Hc Ht. rewrite Hrun, Hc.
    change (Py.truthy (PList (PDict block :: more))) with true.
    cbv beta iota. unfold bind at 1.
    erewrite first_text_of_block by exact Hc.
    rewrite Ht. cbv beta iota. unfold bind, lift. simpl Py.length_of.
    cbv beta iota. now rewrite log_run, after_after.
  - intros Hc. rewrite Hrun.
    destruct Hc as [-> | ->]; cbv beta iota;
      change (Py.truthy (PList [])) with false; cbv beta iota;
      unfold bind, ret; now rewrite log_run, after_after.
  - intros block more Hc Ht. rewrite Hrun, Hc.
    change (Py.truthy (PList (PDict block :: more))) with true.
    cbv beta iota. unfold bind at 1.
    erewrite first_text_of_block by exact Hc.
    rewrite Ht. cbv beta iota. unfold bind.
    now rewrite log_run, after_after.
Qed.

End VisionAnswerFacts.

(** ** The checksum *)

Lemma rstrip_by_keeps p s :
  (forall r c, s = r ++ [c] -> p c = false) -> rstrip_by p s = s.
Proof.
  induction s as [|x t IH]; intros H; [reflexivity|].
  simpl. rewrite IH.
  - destruct t as [|y t']; [|reflexivity].
    now rewrite (H [] x eq_refl).
  - intros r c ->. apply (H (x :: r) c). reflexivity.
Qed.

Lemma rstrip_by_drops p s q :
  p q = true -> rstrip_by p (s ++ [q]) = rstrip_by p s.
Proof.
  intros Hq. induction s as [|x t IH]; simpl; [now rewrite Hq|].
  now rewrite IH.
Qed.

(** Stripping undoes wrapping. *)
Lemma strip_by_wrapped p q inner :
  p q = true ->
  (forall c r, inner = c :: r -> p c = false) ->
  (forall r c, inner = r ++ [c] -> p c = false) ->
  strip_by p (q :: inner ++ [q]) = inner.
Proof.
  intros Hq Hfirst Hlast. unfold strip_by. simpl. rewrite Hq.
  destruct inner as [|c r].
  - simpl. now rewrite Hq.
  - simpl. rewrite (Hfirst c r eq_refl).
    change (c :: r ++ [q]) with ((c :: r) ++ [q]).
    rewrite rstrip_by_drops by exact Hq. now apply rstrip_by_keeps.
Qed.

Section ChecksumFacts.
Context {SV : Services}.

(** X19.  After a successful metadata fetch the checksum of the Document
    Metadata is the reported ETag without the double quotes around it:
    it neither begins nor ends with a double quote, and an ETag that is
    a quoted text, as the store reports it, gives that text. *)
Theorem checksum_has_no_surrounding_quotes
    (bucket : pyval) (key : str) (st : state)
    (resp : head_response datetime) (w1 : W) :
  s3_head_object bucket key (world st) = (Ok resp, w1) ->
  exists md st',
    get_document_metadata bucket key st = (Ok md, st')
    /\ (forall c r, etag md = c :: r -> c <> 34)
    /\ (forall r c, etag md = r ++ [c] -> c <> 34)
    /\ (forall inner,
           ETag resp = Some (34 :: inner ++ [34]) ->
           (forall c r, inner = c :: r -> c <> 34) ->
           (forall r c, inner = r ++ [c] -> c <> 34) ->
           etag md = inner)
    /\ (ETag resp = None -> etag md = []).
Proof.
  intros Hhead. rewrite get_document_metadata_run, Hhead.
  destruct (datetime_now w1) as [now w2].
  eexists; eexists; split; [reflexivity|]. simpl etag.
  destruct (strip_by_edges (N.eqb 34) (or_default (ETag resp) []))
    as [Hfirst Hlast].
  repeat split.
  - intros c r H ->. specialize (Hfirst _ _ H). discriminate.
  - intros r c H ->. specialize (Hlast _ _ H). discriminate.
  - intros inner -> Hin1 Hin2. simpl or_default.
    apply strip_by_wrapped; [reflexivity | |].
    + intros c r H. apply N.eqb_neq. intros E. exact (Hin1 _ _ H (eq_sym E)).
    + intros r c H. apply N.eqb_neq. intros E. exact (Hin2 _ _ H (eq_sym E)).
  - intros ->. reflexivity.
Qed.

End ChecksumFacts.

(** ** The read path *)

Lemma str_eqb_same (a : str) : str_eqb a a = true.
Proof. destruct (str_eqb_spec a a); congruence. Qed.

Section ReadFacts.
Context {SV : Services} {TR : TableReader SV}.

(** X20.  [get_document_by_id] raises nothing.  It returns the value
    under [Item] of the table's answer, and [None] both when the answer
    has no [Item] and when the read fails; in the second case it logs the
    error, and that line is all it adds to the trace. *)
Theorem get_document_by_id_never_raises (document_id : str) (st : state) :
  (exists v st', get_document_by_id document_id st = (Ok v, st'))
  /\ (forall kvs w1,
         table_get_item (document_key document_id) (world st)
         = (Ok (PDict kvs), w1) ->
         get_document_by_id document_id st
         = (Ok (match Py.dict_get kvs (lit "Item") with
                | Some item => item
                | None => PNone
                end),
            {| world := w1; trace := trace st |}))
  /\ (forall e w1,
         table_get_item (document_key document_id) (world st)
         = (Raise e, w1) ->
         get_document_by_id document_id st
         = (Ok PNone,
            after st w1
              [EvLog Error (lit "Error retrieving document: "
                            ++ Py.exn_str e)])).
Proof.
  split; [|split].
  - apply total_try_catch. intros e.
    apply total_bind; [apply total_log | intros _; apply total_ret].
  - intros kvs w1 H.
    unfold get_document_by_id, try_catch, bind, read, lift. now rewrite H.
  - intros e w1 H.
    unfold get_document_by_id, try_catch, bind, read, lift, ret.
    rewrite H. now rewrite log_run.
Qed.

(** X21.  With a table that answers a lookup by identifier with the item
    that was put under it, a notification reported as processed can be
    read back at once by the identifier of its result: the document read
    carries that identifier, the bucket and key of the notification, and
    a text and a summary whose lengths are the ones reported. *)
Theorem processed_document_can_be_read_back
    (record : pyval) (st st' : state) (document_id : str) (bucket : pyval)
    (key : str) (text_length summary_length : Z) :
  table_keeps_items ->
  process_s3_record record st
  = (Ok (Processed document_id bucket key text_length summary_length), st') ->
  exists item st'' text summary,
    get_document_by_id document_id st' = (Ok item, st'')
    /\ Py.getitem_str item (lit "document_id") = Ok (PStr document_id)
    /\ Py.getitem_str item (lit "bucket") = Ok bucket
    /\ Py.getitem_str item (lit "object_key") = Ok (PStr key)
    /\ Py.getitem_str item (lit "raw_text") = Ok (PStr text)
    /\ Py.getitem_str item (lit "summary") = Ok (PStr summary)
    /\ len text = text_length
    /\ len summary = summary_length.
Proof.
  intros Hlaw E.
  destruct (record_fields record) as [[b k]|e] eqn:Hf;
    [|rewrite (process_s3_record_unreadable record st Hf) in E; discriminate].
  unfold record_fields in Hf.
  destruct (record_bucket record) as [b'|] eqn:Hb; [|discriminate].
  destruct (record_key record) as [k'|] eqn:Hk; [|discriminate].
  destruct (process_s3_record_outcome record st Hb Hk)
    as (result & st1 & E' & Hout).
  rewrite E' in E. injection E as -> ->.
  inversion Hout as [b0 k0 id0 md text summary st4 t1 w1 t2 w2 u w3
                       _ _ _ _ _ Hput Hres Hst|]; subst.
  destruct (Hlaw _ document_id _ _ _ Hput eq_refl)
    as (response & w'' & Hget & Hitem).
  exists (document_item document_id bucket key md text summary t1 t2).
  eexists. exists text, summary.
  split; [|repeat split; reflexivity].
  unfold get_document_by_id, try_catch, bind, read, lift, after.
  simpl world. rewrite Hget, Hitem. reflexivity.
Qed.

End ReadFacts.

(** The list-backed table keeps its items. *)
Lemma table_world_keeps_items :
  table_keeps_items (SV := TableWorld.services) (TR := TableWorld.reader).
Proof.
  intros item document_id w u w' Hput Hid.
  simpl in Hput. inversion Hput; subst w'; clear Hput.
  exists (PDict [ kv "Item" item ]), (fst w, item :: snd w).
  split; [|reflexivity].
  assert (Hitem : TableWorld.item_id item = Some document_id)
    by (unfold TableWorld.item_id; now rewrite Hid).
  unfold table_get_item, TableWorld.reader.
  change (TableWorld.item_id (document_key document_id)) with (Some document_id).
  cbn [snd TableWorld.lookup]. now rewrite Hitem, str_eqb_same.
Qed.

(** ** The properties on the concrete world *)

#[local] Existing Instance Runs.up.

Lemma dispatcher_isolates_item_failures_witness :
  exists results entries st1,
    batch_run (SV := Runs.up) Runs.batch
      (after (Fixture.start Runs.up 0%nat) 0%nat
         [EvLog Info (lit "Processing event: "
                      ++ json_dumps (Services := Runs.up)
                           (Fixture.event_of Runs.batch))])
      results st1
    /\ lambda_handler (SV := Runs.up) (Fixture.event_of Runs.batch)
                      (Fixture.start Runs.up 0%nat)
       = (Ok {| statusCode := 200;
                body := json_dumps (Services := Runs.up)
                          (PDict [ kv "message"
                                      (pstr "Documents processed successfully");
                                   kv "results" (PList entries) ]) |},
          after st1 (world st1)
            [EvLog Info (lit "Processing completed. Results: "
                         ++ repr (Services := Runs.up) (PList entries))])
    /\ Forall2 entry_describes results entries
    /\ Forall2 result_of_record (upload_events Runs.batch) results.
Proof.
  apply (@dispatcher_isolates_item_failures Runs.up
           (Fixture.event_of Runs.batch) (PList Runs.batch) Runs.batch
           (Fixture.start Runs.up 0%nat));
    vm_compute; reflexivity.
Defined.

(** A batch with a record that does not name its event source: the
    handler answers 500 and reports no result at all, not even for the
    upload before it. *)
Lemma broken_record_aborts_batch : ~ isolates_any_record_shape.
Proof.
  intros H.
  destruct (H Runs.up Runs.broken_batch (Fixture.start Runs.up 0%nat))
    as (results & st' & E & _).
  assert (S500 : Runs.status_of
                   (lambda_handler (SV := Runs.up)
                      (PDict [ kv "Records" (PList Runs.broken_batch) ])
                      (Fixture.start Runs.up 0%nat)) = 500%Z)
    by (vm_compute; reflexivity).
  rewrite E in S500. discriminate S500.
Qed.

(** The same answer, 500, for an upload event without its [s3] entry:
    the handler of [process_s3_record] reads the entry again. *)
Example record_without_s3_entry_aborts_batch :
  Runs.status_of
    (lambda_handler (SV := Runs.up) (Fixture.event_of Runs.truncated_batch)
                    (Fixture.start Runs.up 0%nat))
  = 500%Z.
Proof. vm_compute. reflexivity. Qed.

(** The object [notes.txt] is decoded directly and no endpoint is
    called. *)
Example text_file_is_decoded_directly :
  fst (extract_text_from_document (SV := Runs.up) (pstr "uploads")
         (lit "notes.txt") (Fixture.start Runs.up 0%nat))
  = Ok (lit "Hello world")
  /\ existsb is_invoke_model
       (trace (snd (extract_text_from_document (SV := Runs.up)
                      (pstr "uploads") (lit "notes.txt")
                      (Fixture.start Runs.up 0%nat))))
     = false.
Proof. split; vm_compute; reflexivity. Qed.

Lemma vision_failure_falls_back_to_direct_decoder_witness :
  extract_text_with_bedrock_data_automation (SV := Runs.down)
    (pstr "uploads") (lit "scan.png") (Fixture.start Runs.down 0%nat)
  = extract_text_directly (SV := Runs.down) (pstr "uploads") (lit "scan.png")
      (after (Fixture.start Runs.down 0%nat) 2%nat
         [ EvGetObject (pstr "uploads") (lit "scan.png");
           EvInvokeModel (BEDROCK_MODEL_ID (Services := Runs.down))
             (json_dumps (Services := Runs.down)
                (extraction_request
                   (map_get media_type_map (file_extension (lit "scan.png"))
                            (lit "application/octet-stream"))
                   (b64encode (Services := Runs.down)
                      (Fixture.object_content (lit "scan.png")))));
           EvLog Error (lit "Error with Bedrock Data Automation: "
                        ++ Py.exn_str (ServiceError (lit "ThrottlingException"))) ]).
Proof.
  apply (@vision_failure_falls_back_to_direct_decoder Runs.down
           (pstr "uploads") (lit "scan.png") (Fixture.start Runs.down 0%nat)
           (Fixture.object_content (lit "scan.png")) 1%nat
           (ServiceError (lit "ThrottlingException")) 2%nat);
    reflexivity.
Defined.

Lemma write_failure_is_reported_per_item_witness :
  (exists results entries st',
      lambda_handler (SV := Runs.up) (Fixture.event_of Runs.batch)
                     (Fixture.start Runs.up 0%nat)
      = (Ok {| statusCode := 200;
               body := json_dumps (Services := Runs.up)
                         (PDict [ kv "message"
                                     (pstr "Documents processed successfully");
                                  kv "results" (PList entries) ]) |}, st')
      /\ Forall2 entry_describes results entries
      /\ map is_processed results = [true; false; true])
  /\ (exists result st1,
         process_s3_record (SV := Runs.up)
           (Fixture.s3_record "uploads" "bad.txt") (Fixture.start Runs.up 0%nat)
         = (Ok result, st1)
         /\ Py.getitem_str (result_to_py result) (lit "status")
            = Ok (pstr "error")
         /\ Py.getitem_str (result_to_py result) (lit "error")
            = Ok (PStr (Py.exn_str
                          (ServiceError (lit "ProvisionedThroughputExceeded"))))
         /\ Py.getitem_str (result_to_py result) (lit "bucket")
            = Ok (pstr "uploads")
         /\ Py.getitem_str (result_to_py result) (lit "key")
            = Ok (PStr (lit "bad.txt"))
         /\ Py.getitem_str (result_to_py result) (lit "document_id")
            = Raise (KeyError (lit "'" ++ lit "document_id" ++ lit "'"))).
Proof.
  split.
  - enough (Hrun : exists results st1,
               batch_run (SV := Runs.up) Runs.batch
                 (after (Fixture.start Runs.up 0%nat) 0%nat
                    [EvLog Info (lit "Processing event: "
                                 ++ json_dumps (Services := Runs.up)
                                      (Fixture.event_of Runs.batch))])
                 results st1
               /\ map is_processed results = [true; false; true]).
    { destruct Hrun as (results & st1 & Hrun & Hflags).
      destruct (proj2 (proj2 (proj2 (proj2 (proj2 (proj2
                  (@write_failure_is_reported_per_item Runs.up))))))
                  (Fixture.event_of Runs.batch) (PList Runs.batch) Runs.batch
                  (Fixture.start Runs.up 0%nat) results st1
                  eq_refl eq_refl Hrun)
        as (entries & Eanswer & Hentries).
      exists results, entries. eexists.
      split; [exact Eanswer|]. split; [exact Hentries | exact Hflags]. }
    eexists; eexists; split.
    + eapply batch_item;
        [evaluate | evaluate | eapply item_written; evaluate |].
      eapply batch_skip; [evaluate | evaluate |].
      eapply batch_item;
        [evaluate | evaluate | eapply item_write_failed; evaluate |].
      eapply batch_item;
        [evaluate | evaluate | eapply item_written; evaluate |].
      apply batch_done.
    + reflexivity.
  - eapply (proj1 (proj2 (proj2 (proj2 (proj2
              (@write_failure_is_reported_per_item Runs.up))))));
      evaluate.
Defined.

(** The answer to the same batch in the world that writes its bodies
    out: the entry of the failed write stands between the two processed
    ones. *)
Example batch_answer_shows_failed_entry :
  fst Transcript.batch_answer
  = Ok {| statusCode := 200;
          body :=
            lit "{message: Documents processed successfully, results: ["
            ++ lit "{document_id: doc-0, bucket: uploads, key: notes.txt, "
            ++ lit "status: processed, text_length: 11, summary_length: 40, }, "
            ++ lit "{bucket: uploads, key: bad.txt, status: error, "
            ++ lit "error: ProvisionedThroughputExceeded, }, "
            ++ lit "{document_id: doc-15, bucket: uploads, key: latin.txt, "
            ++ lit "status: processed, text_length: 3, summary_length: 40, }, "
            ++ lit "], }" |}.
Proof. vm_compute. reflexivity. Qed.

Lemma content_type_resolution_witness :
  exists md st',
    get_document_metadata (SV := Runs.up) (pstr "uploads") (lit "README")
                          (Fixture.start Runs.up 0%nat)
    = (Ok md, st')
    /\ content_type md = None.
Proof.
  apply (@content_type_resolution Runs.up (pstr "uploads") (lit "README")
           (Fixture.start Runs.up 0%nat)
           {| ContentType := None;
              ContentLength := Some 11%Z;
              LastModified := Some 7%nat;
              ETag := Some ([34] ++ lit "abc" ++ [34]);
              Metadata := None |} 1%nat).
  reflexivity.
Defined.

(** A successful fetch for a key from which no type can be guessed: the
    content type is [None], not ["unknown"]. *)
Lemma unguessable_type_is_none : ~ content_type_falls_back_to_unknown.
Proof.
  intros H.
  destruct (H Runs.up (pstr "uploads") (lit "README")
              (Fixture.start Runs.up 0%nat) _ _ eq_refl)
    as (md & st' & E & Hct).
  assert (A : Runs.content_type_of
                (get_document_metadata (SV := Runs.up) (pstr "uploads")
                   (lit "README") (Fixture.start Runs.up 0%nat))
              = Some None)
    by (vm_compute; reflexivity).
  rewrite E in A. unfold Runs.content_type_of in A; simpl in A.
  injection A as A. rewrite A in Hct. vm_compute in Hct. discriminate Hct.
Qed.

Lemma metadata_fetcher_never_raises_witness :
  get_document_metadata (SV := Runs.up) (pstr "uploads") (lit "missing.txt")
                        (Fixture.start Runs.up 0%nat)
  = (Ok {| content_type := Some (lit "unknown");
           content_length := 0%Z;
           last_modified := lit "1";
           etag := [];
           metadata := [] |},
     after (Fixture.start Runs.up 0%nat) 2%nat
       [ EvHeadObject (pstr "uploads") (lit "missing.txt");
         EvLog Error (lit "Error getting document metadata: "
                      ++ lit "Not Found") ]).
Proof.
  apply (proj2 (@metadata_fetcher_never_raises Runs.up (pstr "uploads")
                  (lit "missing.txt") (Fixture.start Runs.up 0%nat))
           (ServiceError (lit "Not Found")) 1%nat).
  reflexivity.
Defined.

Lemma short_text_is_not_summarized_witness :
  generate_summary_with_bedrock (SV := Runs.up) (lit "short text")
                                (Fixture.start Runs.up 0%nat)
  = (Ok (lit "Text too short to summarize effectively."),
     Fixture.start Runs.up 0%nat).
Proof.
  apply (@short_text_is_not_summarized Runs.up (lit "short text")
           (Fixture.start Runs.up 0%nat)).
  right. vm_compute. reflexivity.
Defined.

Lemma summary_request_embeds_first_8000_witness :
  exists out w' rest suffix request message,
    generate_summary_with_bedrock (SV := Transcript.services) Runs.long_text
                                  Transcript.start
    = (Ok out,
       after Transcript.start w'
         (EvInvokeModel (BEDROCK_MODEL_ID (Services := Transcript.services))
            (Transcript.render request) :: rest))
    /\ Forall (fun ev => is_invoke_model ev = false) rest
    /\ request
       = summary_request
           (summary_prompt_head ++ slice_to 8000 Runs.long_text
            ++ summary_prompt_tail)
    /\ Py.getitem_str request (lit "messages") = Ok (PList [message])
    /\ Py.getitem_str message (lit "role") = Ok (pstr "user")
    /\ Py.getitem_str message (lit "content")
       = Ok (PStr ((src_line "Please provide a comprehensive summary of the following document. "
                   ++ src_line "Include the main topics, key points, and any important details."
                   ++ src_line "Keep the summary clear and well-structured."
                   ++ blank_line
                   ++ src_line "Document text:"
                   ++ blank_line)
                   ++ slice_to 8000 Runs.long_text
                   ++ lit "  # Limit text to avoid token limits"
                   ++ blank_line
                   ++ src_line "Summary:"
                   ++ blank_line))
    /\ Runs.long_text = slice_to 8000 Runs.long_text ++ suffix
    /\ List.length (slice_to 8000 Runs.long_text)
       = Nat.min (N.to_nat 8000) (List.length Runs.long_text).
Proof.
  apply (@summary_request_embeds_first_8000 Transcript.services Runs.long_text
           Transcript.start).
  apply Z.leb_le. vm_compute. reflexivity.
Defined.

(** The body that the endpoint receives for the text of 20000 letters
    [a], in the world that writes its requests out: 8000 of the letters
    stand between [Document text:] and the rest of the prompt. *)
Example long_text_request_shows_first_8000 :
  Transcript.summary_body Runs.long_text
  = lit "{anthropic_version: bedrock-2023-05-31, max_tokens: 1000, "
    ++ lit "messages: [{role: user, content: "
    ++ src_line "Please provide a comprehensive summary of the following document. "
    ++ src_line "Include the main topics, key points, and any important details."
    ++ src_line "Keep the summary clear and well-structured."
    ++ blank_line
    ++ src_line "Document text:"
    ++ blank_line
    ++ repeat 97%N (N.to_nat 8000)
    ++ lit "  # Limit text to avoid token limits"
    ++ blank_line
    ++ src_line "Summary:"
    ++ blank_line
    ++ lit ", }, ], temperature: <float>, top_p: <float>, }".
Proof. vm_compute. reflexivity. Qed.

Lemma summary_prompt_carries_source_comment_witness :
  exists out w' rest before following request message,
    generate_summary_with_bedrock (SV := Transcript.services) Runs.report
                                  Transcript.start
    = (Ok out,
       after Transcript.start w'
         (EvInvokeModel (BEDROCK_MODEL_ID (Services := Transcript.services))
            (Transcript.render request) :: rest))
    /\ request
       = summary_request
           (before ++ slice_to 8000 Runs.report
            ++ lit "  # Limit text to avoid token limits"
            ++ following)
    /\ Py.getitem_str request (lit "messages") = Ok (PList [message])
    /\ Py.getitem_str message (lit "content")
       = Ok (PStr (before ++ slice_to 8000 Runs.report
                   ++ lit "  # Limit text to avoid token limits"
                   ++ following))
    /\ before
       = src_line "Please provide a comprehensive summary of the following document. "
         ++ src_line "Include the main topics, key points, and any important details."
         ++ src_line "Keep the summary clear and well-structured."
         ++ blank_line
         ++ src_line "Document text:"
         ++ blank_line
    /\ following = blank_line ++ src_line "Summary:" ++ blank_line.
Proof.
  apply (@summary_prompt_carries_source_comment Transcript.services Runs.report
           Transcript.start).
  apply Z.leb_le. vm_compute. reflexivity.
Defined.

(** The body that the endpoint receives for a short report: the comment
    follows the text of the report. *)
Example report_request_shows_source_comment :
  Transcript.summary_body Runs.report
  = lit "{anthropic_version: bedrock-2023-05-31, max_tokens: 1000, "
    ++ lit "messages: [{role: user, content: "
    ++ src_line "Please provide a comprehensive summary of the following document. "
    ++ src_line "Include the main topics, key points, and any important details."
    ++ src_line "Keep the summary clear and well-structured."
    ++ blank_line
    ++ src_line "Document text:"
    ++ blank_line
    ++ lit "Quarterly report: revenue grew in every region and costs stayed flat."
    ++ lit "  # Limit text to avoid token limits"
    ++ blank_line
    ++ src_line "Summary:"
    ++ blank_line
    ++ lit ", }, ], temperature: <float>, top_p: <float>, }".
Proof. vm_compute. reflexivity. Qed.

(** ** The further properties on the concrete worlds *)

Lemma handler_rejects_unreadable_batch_witness :
  lambda_handler (SV := Runs.up) Samples.no_records Samples.st_up
  = (Ok (failure_response (KeyError (lit "'" ++ lit "Records" ++ lit "'"))),
     after Samples.st_up 0%nat
       [ entry_log Samples.no_records;
         abort_log (KeyError (lit "'" ++ lit "Records" ++ lit "'")) ]).
Proof.
  apply (@handler_rejects_unreadable_batch Runs.up Samples.no_records
           Samples.st_up (KeyError (lit "'" ++ lit "Records" ++ lit "'"))).
  left. reflexivity.
Defined.

Lemma handler_skips_other_sources_witness :
  lambda_handler (SV := Runs.up) (Fixture.event_of Samples.other_sources)
                 Samples.st_up
  = (Ok (success_response []),
     after Samples.st_up 0%nat
       [ entry_log (Fixture.event_of Samples.other_sources); exit_log [] ]).
Proof.
  apply (@handler_skips_other_sources Runs.up
           (Fixture.event_of Samples.other_sources)
           (PList Samples.other_sources) Samples.other_sources Samples.st_up);
    vm_compute; reflexivity.
Defined.

Lemma process_s3_record_raises_iff_unreadable_witness :
  process_s3_record (SV := Runs.up) Fixture.bare_record Samples.st_up
  = (Raise (KeyError (lit "'" ++ lit "s3" ++ lit "'")),
     after Samples.st_up 0%nat
       [EvLog Error (lit "Error processing S3 record: "
                     ++ Py.exn_str (KeyError (lit "'" ++ lit "s3" ++ lit "'")))]).
Proof.
  apply (proj1 (@process_s3_record_raises_iff_unreadable Runs.up
                  Fixture.bare_record Samples.st_up)).
  reflexivity.
Defined.

Lemma handler_aborts_at_unreadable_record_witness :
  exists st1 logs,
    lambda_handler (SV := Runs.up) (Fixture.event_of Runs.truncated_batch)
                   Samples.st_up
    = (Ok (failure_response (KeyError (lit "'" ++ lit "s3" ++ lit "'"))),
       after st1 (world st1) logs)
    /\ forallb is_log logs = true
    /\ existsb is_put_item (trace st1) = true.
Proof.
  assert (Hrun : exists results st1,
             batch_run (SV := Runs.up) [Samples.notes_record]
               (after Samples.st_up 0%nat
                  [entry_log (Fixture.event_of Runs.truncated_batch)])
               results st1
             /\ existsb is_put_item (trace st1) = true).
  { eexists; eexists; split.
    - eapply batch_item;
        [evaluate | evaluate | eapply item_written; evaluate | apply batch_done].
    - vm_compute. reflexivity. }
  destruct Hrun as (results & st1 & Hrun & Hput).
  destruct (@handler_aborts_at_unreadable_record Runs.up
              (Fixture.event_of Runs.truncated_batch)
              (PList Runs.truncated_batch)
              [Samples.notes_record] Fixture.bare_record [] Samples.st_up
              results st1 (KeyError (lit "'" ++ lit "s3" ++ lit "'"))
              eq_refl eq_refl Hrun)
    as (logs & E & Hlogs).
  - right. exists (pstr "aws:s3"). repeat split; reflexivity.
  - exists st1, logs. repeat split; assumption.
Defined.


Lemma each_notification_is_written_once_witness :
  exists results st' evs,
    lambda_handler (SV := Runs.up) (Fixture.event_of Runs.batch) Samples.st_up
    = (Ok (success_response results), st')
    /\ trace st' = trace Samples.st_up ++ evs
    /\ List.length results = List.length (upload_events Runs.batch)
    /\ count is_put_item evs = List.length (upload_events Runs.batch)
    /\ count is_head_object evs = List.length (upload_events Runs.batch).
Proof.
  apply (@each_notification_is_written_once Runs.up
           (Fixture.event_of Runs.batch) (PList Runs.batch) Runs.batch
           Samples.st_up);
    vm_compute; reflexivity.
Defined.

Lemma handler_call_budget_witness :
  exists evs,
    trace (snd Samples.batch_answer) = trace Samples.st_up ++ evs
    /\ (count is_head_object evs <= uploads_of (Fixture.event_of Runs.batch))%nat
    /\ (count is_get_object evs
        <= 2 * uploads_of (Fixture.event_of Runs.batch))%nat
    /\ (count is_invoke_model evs
        <= 2 * uploads_of (Fixture.event_of Runs.batch))%nat
    /\ (count is_put_item evs <= uploads_of (Fixture.event_of Runs.batch))%nat.
Proof.
  apply (@handler_call_budget Runs.up (Fixture.event_of Runs.batch)
           Samples.st_up (fst Samples.batch_answer) (snd Samples.batch_answer)).
  vm_compute. reflexivity.
Defined.

Lemma stages_make_only_their_own_calls_witness :
  exists evs,
    trace (snd Samples.metadata_run) = trace Samples.st_up ++ evs
    /\ within {| heads := 1; gets := 0; invokes := 0; puts := 0 |} evs.
Proof.
  apply (proj1 (@stages_make_only_their_own_calls Runs.up Samples.notes_record
                  Samples.uploads (lit "notes.txt") (lit "doc-0") [] []
                  (degraded_metadata []))
           Samples.st_up (fst Samples.metadata_run) (snd Samples.metadata_run)).
  vm_compute. reflexivity.
Defined.

Lemma plain_file_is_decoded_directly_witness :
  extract_text_from_document (SV := Runs.up) Samples.uploads (lit "notes.txt")
                             Samples.st_up
  = (Ok (match decode_utf8 false (Fixture.object_content (lit "notes.txt")) with
         | Ok text => text
         | Raise _ => map Byte.to_N (Fixture.object_content (lit "notes.txt"))
         end),
     after Samples.st_up 1%nat
       [ EvLog Info (lit "Extracting text from document: " ++ lit "notes.txt");
         EvGetObject Samples.uploads (lit "notes.txt") ]).
Proof.
  apply (proj1 (@plain_file_is_decoded_directly Runs.up Samples.uploads
                  (lit "notes.txt") Samples.st_up eq_refl)).
  reflexivity.
Defined.

Lemma decoded_text_is_no_longer_than_content_witness :
  exists text st',
    extract_text_directly (SV := Runs.up) Samples.uploads (lit "latin.txt")
                          Samples.st_up
    = (Ok text, st')
    /\ (len text
        <= Z.of_nat (List.length (Fixture.object_content (lit "latin.txt"))))%Z
    /\ (forall e,
           decode_utf8 false (Fixture.object_content (lit "latin.txt")) = Raise e ->
           len text
           = Z.of_nat (List.length (Fixture.object_content (lit "latin.txt")))).
Proof.
  apply (@decoded_text_is_no_longer_than_content Runs.up Samples.uploads
           (lit "latin.txt") Samples.st_up
           (Fixture.object_content (lit "latin.txt")) 1%nat).
  reflexivity.
Defined.

Lemma vision_media_type_is_listed_witness :
  In (map_get media_type_map (file_extension (lit "Scan.PNG"))
              (lit "application/octet-stream"))
     vision_media_types
  /\ map_get media_type_map (file_extension (lit "Scan.PNG"))
             (lit "application/octet-stream")
     <> lit "application/octet-stream".
Proof.
  apply (@vision_media_type_is_listed (lit "Scan.PNG")).
  vm_compute. reflexivity.
Defined.

Lemma dispatch_depends_on_suffix_only_witness :
  uses_vision (lit "reports.v2/scan" ++ 46 :: lit "PDF")
  = str_in (lower (lit "PDF")) vision_extensions.
Proof.
  apply (@dispatch_depends_on_suffix_only (lit "reports.v2/scan") (lit "PDF")).
  reflexivity.
Defined.

Lemma summary_prompt_is_bounded_witness :
  summary_prompt Runs.long_text = summary_prompt (Runs.long_text ++ lit "tail").
Proof.
  apply (proj2 (@summary_prompt_is_bounded Runs.long_text
                  (Runs.long_text ++ lit "tail"))).
  vm_compute. reflexivity.
Defined.

Lemma summarizer_failure_gives_placeholder_witness :
  generate_summary_with_bedrock (SV := Runs.down) Runs.report Samples.st_down
  = (Ok (lit "Error generating summary: "
         ++ Py.exn_str (ServiceError (lit "ThrottlingException"))),
     after Samples.st_down 1%nat
       [ EvInvokeModel (BEDROCK_MODEL_ID (Services := Runs.down))
           (json_dumps (Services := Runs.down)
              (summary_request (summary_prompt Runs.report)));
         EvLog Error (lit "Error generating summary with Bedrock: "
                      ++ Py.exn_str (ServiceError (lit "ThrottlingException"))) ]).
Proof.
  apply (@summarizer_failure_gives_placeholder Runs.down Runs.report
           Samples.st_down (ServiceError (lit "ThrottlingException")) 1%nat).
  - apply Z.leb_le. vm_compute. reflexivity.
  - reflexivity.
Defined.

Lemma summarizer_reads_answer_witness :
  generate_summary_with_bedrock (SV := Runs.up) Runs.report Samples.st_up
  = (Ok (strip (map Byte.to_N (Fixture.text_bytes " A summary. "))),
     after Samples.st_up 1%nat
       [ EvInvokeModel (BEDROCK_MODEL_ID (Services := Runs.up))
           (json_dumps (Services := Runs.up)
              (summary_request (summary_prompt Runs.report))) ]).
Proof.
  assert (Hlen : (50 <= len (strip Runs.report))%Z)
    by (apply Z.leb_le; vm_compute; reflexivity).
  exact (proj1 (proj1 (@summarizer_reads_answer Runs.up Runs.report
                         Samples.st_up (Fixture.text_bytes " A summary. ")
                         1%nat Samples.answer Hlen eq_refl eq_refl)
                  Samples.answer_block []
                  (map Byte.to_N (Fixture.text_bytes " A summary. "))
                  eq_refl eq_refl)).
Defined.

Lemma vision_reads_answer_witness :
  extract_text_with_bedrock_data_automation (SV := Runs.up) Samples.uploads
    (lit "scan.png") Samples.st_up
  = (Ok (strip (map Byte.to_N (Fixture.text_bytes " A summary. "))),
     after Samples.st_up 2%nat
       ([ EvGetObject Samples.uploads (lit "scan.png");
          EvInvokeModel (BEDROCK_MODEL_ID (Services := Runs.up))
            (json_dumps (Services := Runs.up)
               (extraction_request
                  (map_get media_type_map (file_extension (lit "scan.png"))
                           (lit "application/octet-stream"))
                  (b64encode (Services := Runs.up)
                     (Fixture.object_content (lit "scan.png"))))) ]
        ++ [EvLog Info
              (lit "Successfully extracted text using Bedrock Data Automation: "
               ++ str_of_Z (len (map Byte.to_N
                                   (Fixture.text_bytes " A summary. ")))
               ++ lit " characters")])).
Proof.
  exact (proj1 (@vision_reads_answer Runs.up Samples.uploads (lit "scan.png")
                  Samples.st_up (Fixture.object_content (lit "scan.png"))
                  1%nat (Fixture.text_bytes " A summary. ") 2%nat
                  Samples.answer eq_refl eq_refl eq_refl)
           Samples.answer_block []
           (map Byte.to_N (Fixture.text_bytes " A summary. "))
           eq_refl eq_refl).
Defined.

Lemma checksum_has_no_surrounding_quotes_witness :
  exists md st',
    get_document_metadata (SV := Runs.up) Samples.uploads (lit "notes.txt")
                          Samples.st_up
    = (Ok md, st')
    /\ etag md = lit "abc".
Proof.
  destruct (@checksum_has_no_surrounding_quotes Runs.up Samples.uploads
              (lit "notes.txt") Samples.st_up Samples.reported 1%nat eq_refl)
    as (md & st' & E & _ & _ & Hinner & _).
  exists md, st'. split; [exact E|].
  apply Hinner; [reflexivity | |].
  - intros c r H. change (lit "abc") with [97; 98; 99] in H.
    injection H as <- _. discriminate.
  - intros r c H. change (lit "abc") with ([97; 98] ++ [99]) in H.
    apply app_inj_tail in H as [_ <-]. discriminate.
Defined.

Lemma get_document_by_id_never_raises_witness :
  get_document_by_id (SV := TableWorld.services)
    (TR := TableWorld.unreachable_reader) (lit "doc-0") TableWorld.start
  = (Ok PNone,
     after TableWorld.start TableWorld.empty_table
       [EvLog Error (lit "Error retrieving document: "
                     ++ Py.exn_str (ServiceError
                                      (lit "ResourceNotFoundException")))]).
Proof.
  apply (proj2 (proj2 (@get_document_by_id_never_raises TableWorld.services
                         TableWorld.unreachable_reader (lit "doc-0")
                         TableWorld.start))
           (ServiceError (lit "ResourceNotFoundException"))
           TableWorld.empty_table).
  reflexivity.
Defined.

Lemma processed_document_can_be_read_back_witness :
  exists item st'' text summary,
    get_document_by_id (SV := TableWorld.services) (TR := TableWorld.reader)
      (lit "doc-0") (snd Samples.table_run)
    = (Ok item, st'')
    /\ Py.getitem_str item (lit "document_id") = Ok (PStr (lit "doc-0"))
    /\ Py.getitem_str item (lit "bucket") = Ok Samples.uploads
    /\ Py.getitem_str item (lit "object_key") = Ok (PStr (lit "notes.txt"))
    /\ Py.getitem_str item (lit "raw_text") = Ok (PStr text)
    /\ Py.getitem_str item (lit "summary") = Ok (PStr summary)
    /\ len text = 11%Z
    /\ len summary = 40%Z.
Proof.
  apply (@processed_document_can_be_read_back TableWorld.services
           TableWorld.reader Samples.notes_record TableWorld.start
           (snd Samples.table_run) (lit "doc-0") Samples.uploads
           (lit "notes.txt") 11%Z 40%Z table_world_keeps_items).
  vm_compute. reflexivity.
Defined.
